(** * dicomrangeshifter: the range-shifter editor of [rangeshifter.py]

    A shallow embedding of the class [RangeShifter] (constructor, [add],
    [save]) and of the part of the pydicom document tree it reads and writes,
    followed by the properties of the editor.

    The source is Python 3: values are dynamically typed, a float is an IEEE
    754 binary64, an ordering comparison between [None] (or text) and a float
    raises [TypeError], and a bare name that is bound nowhere raises
    [NameError]. *)

From Stdlib Require Import ZArith String Ascii List Lia DecimalString.
From Stdlib Require Import Floats.SpecFloat.
From stdpp Require Import base option list strings gmap.

Local Open Scope string_scope.
Local Open Scope Z_scope.

(** ** Python floats: IEEE 754 binary64 *)

Module F64.
Definition prec : Z := 53.
Definition emax : Z := 1024.

Definition add : spec_float → spec_float → spec_float := SFadd prec emax.
Definition sub : spec_float → spec_float → spec_float := SFsub prec emax.

(** [float(z)] before the overflow check: round to nearest, ties to even. *)
Definition of_Z (z : Z) : spec_float := binary_normalize prec emax z 0 false.

Definition is_zero (f : spec_float) : bool :=
  match f with S754_zero _ => true | _ => false end.

Definition is_infinity (f : spec_float) : bool :=
  match f with S754_infinity _ => true | _ => false end.

(** Python compares an int with a float by their exact values. *)
Definition compare_Z (z : Z) (f : spec_float) : option comparison :=
  match f with
  | S754_nan => None
  | S754_infinity s => Some (if s then Gt else Lt)
  | S754_zero _ => Some (z ?= 0)
  | S754_finite s m e =>
      let v := cond_Zopp s (Zpos m) in
      Some (match e with
            | Zneg k => (z * 2 ^ Zpos k ?= v)
            | _ => (z ?= v * 2 ^ e)
            end)
  end.

(** The float literals of the source. *)
Definition lit_461 : spec_float := Eval vm_compute in of_Z 461.
Definition lit_421 : spec_float := Eval vm_compute in of_Z 421.
Definition lit_20 : spec_float := Eval vm_compute in of_Z 20.
Definition lit_23 : spec_float := Eval vm_compute in of_Z 23.
Definition lit_40 : spec_float := Eval vm_compute in of_Z 40.
End F64.

(** ** Python values and exceptions *)

(** The values of the documented argument types: [None], [bool], [int],
    [float] and [str]. Other built-in types (bytes, lists, tuples) are not
    represented. *)
Inductive pyval : Type :=
  | PyNone
  | PyBool (b : bool)
  | PyInt (z : Z)
  | PyFloat (f : spec_float)
  | PyStr (s : string).

Inductive exn : Type :=
  | TypeError (msg : string)
  | ValueError (msg : string)
  | AttributeError (msg : string)
  | NameError (msg : string)
  | IndexError (msg : string)
  | OverflowError (msg : string)
  | FileNotFoundError (msg : string)
  | InvalidDicomError (msg : string).

Inductive result (A : Type) : Type :=
  | Ok (a : A)
  | Raise (e : exn).
Global Arguments Ok {A} a.
Global Arguments Raise {A} e.

Global Instance result_ret : MRet result := λ A a, Ok a.
Global Instance result_bind : MBind result := λ A B f m,
  match m with
  | Ok a => f a
  | Raise e => Raise e
  end.

Definition raised {A} (r : result A) : Prop := ∃ e, r = Raise e.

(** Short-circuit [and] / [or] over conditions that may raise. *)
Definition py_and (a b : result bool) : result bool :=
  x ← a; if x : bool then b else Ok false.
Definition py_or (a b : result bool) : result bool :=
  x ← a; if x : bool then Ok true else b.

Definition type_name (v : pyval) : string :=
  match v with
  | PyNone => "NoneType"
  | PyBool _ => "bool"
  | PyInt _ => "int"
  | PyFloat _ => "float"
  | PyStr _ => "str"
  end.

(** The numeric view of a value: [bool] is a subclass of [int]. *)
Inductive num : Type :=
  | NInt (z : Z)
  | NFloat (f : spec_float).

Definition as_num (v : pyval) : option num :=
  match v with
  | PyBool b => Some (NInt (Z.b2z b))
  | PyInt z => Some (NInt z)
  | PyFloat f => Some (NFloat f)
  | _ => None
  end.

(** [isinstance(v, str)] and [isinstance(v, (float, int))]. *)
Definition isinstance_str (v : pyval) : bool :=
  match v with PyStr _ => true | _ => false end.
Definition isinstance_float_int (v : pyval) : bool :=
  match as_num v with Some _ => true | None => false end.

(** Three-way comparison of two numbers; [None] when unordered (NaN). *)
Definition num_compare (a b : num) : option comparison :=
  match a, b with
  | NInt x, NInt y => Some (x ?= y)
  | NInt x, NFloat g => F64.compare_Z x g
  | NFloat f, NInt y => CompOpp <$> F64.compare_Z y f
  | NFloat f, NFloat g => SFcompare f g
  end.

Definition unorderable (op : string) (a b : pyval) : exn :=
  TypeError ("'" +:+ op +:+ "' not supported between instances of '"
             +:+ type_name a +:+ "' and '" +:+ type_name b +:+ "'").

(** Ordering: numbers against numbers, text against text; anything else,
    [None] included, is unorderable. *)
Definition py_compare (op : string) (a b : pyval) : result (option comparison) :=
  match a, b with
  | PyStr s, PyStr t => Ok (Some (String.compare s t))
  | _, _ =>
      match as_num a, as_num b with
      | Some x, Some y => Ok (num_compare x y)
      | _, _ => Raise (unorderable op a b)
      end
  end.

Definition py_gt (a b : pyval) : result bool :=
  c ← py_compare ">" a b;
  Ok (match c with Some Gt => true | _ => false end).

Definition py_lt (a b : pyval) : result bool :=
  c ← py_compare "<" a b;
  Ok (match c with Some Lt => true | _ => false end).

Definition py_le (a b : pyval) : result bool :=
  c ← py_compare "<=" a b;
  Ok (match c with Some (Lt | Eq) => true | _ => false end).

(** [a == b] never raises. *)
Definition py_eq (a b : pyval) : bool :=
  match a, b with
  | PyNone, PyNone => true
  | PyStr s, PyStr t => bool_decide (s = t)
  | _, _ =>
      match as_num a, as_num b with
      | Some x, Some y =>
          match num_compare x y with Some Eq => true | _ => false end
      | _, _ => false
      end
  end.

(** [x in [v1, v2, ...]]. *)
Definition py_in (x : pyval) (l : list pyval) : bool :=
  existsb (py_eq x) l.

(** Truth value of an object, as tested by [if v:]. *)
Definition truthy (v : pyval) : bool :=
  match v with
  | PyNone => false
  | PyBool b => b
  | PyInt z => negb (z =? 0)
  | PyFloat f => negb (F64.is_zero f)
  | PyStr s => negb (bool_decide (s = ""))
  end.

(** [float(z)] for an int operand of mixed arithmetic. *)
Definition float_of_int (z : Z) : result spec_float :=
  let f := F64.of_Z z in
  if F64.is_infinity f
  then Raise (OverflowError "int too large to convert to float")
  else Ok f.

Definition unsupported (op : string) (a b : pyval) : exn :=
  TypeError ("unsupported operand type(s) for " +:+ op +:+ ": '"
             +:+ type_name a +:+ "' and '" +:+ type_name b +:+ "'").

Definition num_arith (fz : Z → Z → Z) (ff : spec_float → spec_float → spec_float)
    (a b : num) : result pyval :=
  match a, b with
  | NInt x, NInt y => Ok (PyInt (fz x y))
  | NInt x, NFloat g => f ← float_of_int x; Ok (PyFloat (ff f g))
  | NFloat f, NInt y => g ← float_of_int y; Ok (PyFloat (ff f g))
  | NFloat f, NFloat g => Ok (PyFloat (ff f g))
  end.

Definition py_add (a b : pyval) : result pyval :=
  match a, b with
  | PyStr s, PyStr t => Ok (PyStr (s +:+ t))
  | _, _ =>
      match as_num a, as_num b with
      | Some x, Some y => num_arith Z.add F64.add x y
      | _, _ => Raise (unsupported "+" a b)
      end
  end.

Definition py_sub (a b : pyval) : result pyval :=
  match as_num a, as_num b with
  | Some x, Some y => num_arith Z.sub F64.sub x y
  | _, _ => Raise (unsupported "-" a b)
  end.

(** ** Text: slices and [str()] *)

(** A slice bound is first made absolute (negative counts from the end),
    then clamped into [0, len]. *)
Definition slice_index (len i : Z) : Z :=
  let j := if i <? 0 then i + len else i in
  Z.max 0 (Z.min len j).

(** [s[lo:hi]], either bound possibly omitted. *)
Definition py_slice (lo hi : option Z) (s : string) : string :=
  let len := Z.of_nat (String.length s) in
  let a := from_option (slice_index len) 0 lo in
  let b := from_option (slice_index len) len hi in
  substring (Z.to_nat a) (Z.to_nat (b - a)) s.

(** Slicing a value that is not a sequence. *)
Definition not_subscriptable (v : pyval) : exn :=
  TypeError ("'" +:+ type_name v +:+ "' object is not subscriptable").

Definition str_of_Z (z : Z) : string := NilZero.string_of_int (Z.to_int z).

(** ** The document tree

    The attributes of a decoded RT Ion Plan that the editor reads or writes.
    An attribute of a pydicom dataset may be absent: reading it then raises
    [AttributeError], assigning it creates it. *)

Module DeviceBlock.
(** An item of a beam's RangeShifterSequence (300a,0314). *)
Record t : Type := mk {
  RangeShifterNumber : option pyval;
  RangeShifterID : option pyval;
  RangeShifterType : option pyval
}.
Definition set_RangeShifterID (v : pyval) (d : t) : t :=
  mk (RangeShifterNumber d) (Some v) (RangeShifterType d).
End DeviceBlock.

Module SettingsBlock.
(** An item of a control point's RangeShifterSettingsSequence (300a,0360). *)
Record t : Type := mk {
  RangeShifterSetting : option pyval;
  IsocenterToRangeShifterDistance : option pyval;
  RangeShifterWaterEquivalentThickness : option pyval;
  ReferencedRangeShifterNumber : option pyval
}.
Definition set_IsocenterToRangeShifterDistance (v : pyval) (d : t) : t :=
  mk (RangeShifterSetting d) (Some v)
     (RangeShifterWaterEquivalentThickness d) (ReferencedRangeShifterNumber d).
End SettingsBlock.

Module ControlPoint.
Record t : Type := mk {
  SnoutPosition : option pyval;
  RangeShifterSettingsSequence : option (list SettingsBlock.t)
}.
Definition set_SnoutPosition (v : pyval) (c : t) : t :=
  mk (Some v) (RangeShifterSettingsSequence c).
Definition set_RangeShifterSettingsSequence (l : list SettingsBlock.t) (c : t) : t :=
  mk (SnoutPosition c) (Some l).
End ControlPoint.

Module IonBeam.
Record t : Type := mk {
  NumberOfRangeShifters : option pyval;
  RangeShifterSequence : option (list DeviceBlock.t);
  IonControlPointSequence : option (list ControlPoint.t)
}.
Definition set_NumberOfRangeShifters (v : pyval) (b : t) : t :=
  mk (Some v) (RangeShifterSequence b) (IonControlPointSequence b).
Definition set_RangeShifterSequence (l : list DeviceBlock.t) (b : t) : t :=
  mk (NumberOfRangeShifters b) (Some l) (IonControlPointSequence b).
Definition set_IonControlPointSequence (l : list ControlPoint.t) (b : t) : t :=
  mk (NumberOfRangeShifters b) (RangeShifterSequence b) (Some l).
End IonBeam.

Module Plan.
Record t : Type := mk {
  RTPlanLabel : option string;
  SOPInstanceUID : option string;
  IonBeamSequence : option (list IonBeam.t)
}.
(** The label is kept as the one text value assigned. (A value with a
    backslash is split by the dataset into several values; properties about
    the stored label are stated for labels without one.) *)
Definition set_RTPlanLabel (v : string) (d : t) : t :=
  mk (Some v) (SOPInstanceUID d) (IonBeamSequence d).
Definition set_SOPInstanceUID (v : string) (d : t) : t :=
  mk (RTPlanLabel d) (Some v) (IonBeamSequence d).
Definition set_IonBeamSequence (l : list IonBeam.t) (d : t) : t :=
  mk (RTPlanLabel d) (SOPInstanceUID d) (Some l).
End Plan.

(** Reading an attribute [name] of an object of class [cls]. *)
Definition getattr {A} (cls name : string) (field : option A) : result A :=
  match field with
  | Some a => Ok a
  | None =>
      Raise (AttributeError ("'" +:+ cls +:+ "' object has no attribute '" +:+ name +:+ "'"))
  end.

(** [seq[0]] on a sequence of datasets. *)
Definition first_item {A} (seq : list A) : result A :=
  match seq !! 0%nat with
  | Some a => Ok a
  | None => Raise (IndexError "list index out of range")
  end.

(** A bare name that is neither a local of the running method nor bound at
    module level (the module binds [RangeShifter] and what
    [from pydicom import *] exports). *)
Definition unbound_name {A} (name : string) : result A :=
  Raise (NameError ("name '" +:+ name +:+ "' is not defined")).

(** [for x in xs: body], the body rewriting [x] in place and possibly raising:
    items are visited in order and the first exception ends the loop. *)
Fixpoint for_each {A} (body : A → result A) (xs : list A) : result (list A) :=
  match xs with
  | [] => Ok []
  | x :: rest => x' ← body x; rest' ← for_each body rest; Ok (x' :: rest')
  end.

(** ** The outside world: files behind the codec, and standard output

    A DICOM file is identified with the document that was written to it, or
    that it decodes to. What encoding does to element values (a number of
    value representation FL is stored in 32 bits) is the codec's business
    and is not modelled: no property below states what reading back a saved
    file returns. The message of a file or codec error is the library's own;
    the path stands in for it. *)

Inductive file : Type :=
  | DicomFile (d : Plan.t)
  | OtherFile.

Record World : Type := mkWorld {
  files : gmap string file;
  stdout : list string
}.

Definition dcmread (w : World) (path : string) : result Plan.t :=
  match files w !! path with
  | Some (DicomFile d) => Ok d
  | Some OtherFile => Raise (InvalidDicomError path)
  | None => Raise (FileNotFoundError path)
  end.

Definition save_as (d : Plan.t) (path : string) (w : World) : World :=
  mkWorld (<[path := DicomFile d]> (files w)) (stdout w).

Definition print (line : string) (w : World) : World :=
  mkWorld (files w) (stdout w ++ [line]).

(** ** The editor object *)

(** The instance attributes of a [RangeShifter]. [RangeShifterID],
    [IsocentertoRangeShifterDistance] and [ds] are assigned on some paths only:
    until then the attribute does not exist. *)
Record RangeShifter : Type := mkRangeShifter {
  RangeShifterID : option pyval;
  outfile : string;
  IsocentertoRangeShifterDistance : option pyval;
  infile : string;
  RTPlanLabel : string;
  SnoutPosition : pyval;
  add_rangeshifter : bool;
  RangeShifterNumber : pyval;
  ReferencedRangeShifterNumber : pyval;
  RangeShifterType : pyval;
  RangeShifterSetting : pyval;
  NumberOfRangeShifters : pyval;
  RangeShifterWaterEquivalentThickness : pyval;
  ds : option Plan.t
}.

Definition set_ds (d : Plan.t) (self : RangeShifter) : RangeShifter :=
  mkRangeShifter (RangeShifterID self) (outfile self)
    (IsocentertoRangeShifterDistance self) (infile self) (RTPlanLabel self)
    (SnoutPosition self) (add_rangeshifter self) (RangeShifterNumber self)
    (ReferencedRangeShifterNumber self) (RangeShifterType self)
    (RangeShifterSetting self) (NumberOfRangeShifters self)
    (RangeShifterWaterEquivalentThickness self) (Some d).

Section Constructor.
(** [str()] of a float is Python's shortest round-trip printing, a built-in
    of the interpreter; the constructor is parametric in it. *)
Variable float_repr : spec_float → string.

Definition py_str (v : pyval) : string :=
  match v with
  | PyNone => "None"
  | PyBool b => if b then "True" else "False"
  | PyInt z => str_of_Z z
  | PyFloat f => float_repr f
  | PyStr s => s
  end.

(** Lines 32-35. *)
Definition check_infile (infile : pyval) : result string :=
  match infile with
  | PyStr s =>
      if negb (bool_decide (py_slice (Some (-4)) None s = ".dcm"))
      then Raise (ValueError "infile must include .dcm file extension")
      else Ok s
  | _ => Raise (TypeError "infile must be a string")
  end.

(** Lines 37-42: the identifier attribute is assigned only on the first
    branch. *)
Definition init_RangeShifterID (range_shifter : pyval) (add_rangeshifter : bool)
    : result (option pyval) :=
  if py_in range_shifter [PyInt 2; PyInt 3; PyInt 5]
  then Ok (Some (PyStr ("RS=" +:+ py_str range_shifter +:+ "cm")))
  else if add_rangeshifter && negb (py_in range_shifter [PyInt 2; PyInt 3; PyInt 5])
  then Raise (ValueError "range_shifter must be int, either: 2, 3 or 5")
  else if negb add_rangeshifter
          && negb (py_in range_shifter [PyInt 2; PyInt 3; PyInt 5; PyNone])
  then Raise (ValueError "range_shifter must be None or int (either: 2, 3 or 5)")
  else Ok None.

(** Lines 44-45. *)
Definition check_plan_id (plan_id : pyval) : result string :=
  match plan_id with
  | PyStr s => Ok s
  | _ => Raise (TypeError "plan_id must be a string")
  end.

(** Lines 47-52. The three conditions are evaluated in turn, each left to
    right with short circuit, so a comparison that raises does so before the
    [raise] statement of its branch is reached. *)
Definition snout_not_a_number (snout_position : pyval) (add_rangeshifter : bool)
    : result bool :=
  py_and (Ok add_rangeshifter) (Ok (negb (isinstance_float_int snout_position))).

Definition snout_out_of_range_adding (snout_position : pyval) (add_rangeshifter : bool)
    : result bool :=
  py_and (Ok add_rangeshifter)
         (py_or (py_gt snout_position (PyFloat F64.lit_421))
                (py_lt snout_position (PyFloat F64.lit_20))).

Definition snout_out_of_range_modifying (snout_position : pyval) (add_rangeshifter : bool)
    : result bool :=
  py_and (Ok (negb add_rangeshifter))
         (py_or (py_gt snout_position (PyFloat F64.lit_421))
                (py_or (py_lt snout_position (PyFloat F64.lit_20))
                       (Ok (py_eq snout_position PyNone)))).

Definition check_snout_position (snout_position : pyval) (add_rangeshifter : bool)
    : result unit :=
  c1 ← snout_not_a_number snout_position add_rangeshifter;
  if c1 : bool
  then Raise (TypeError "snout_position must be float or int")
  else
    c2 ← snout_out_of_range_adding snout_position add_rangeshifter;
    if c2 : bool
    then Raise (ValueError "snout_position must be between 20.0 and 421.0")
    else
      c3 ← snout_out_of_range_modifying snout_position add_rangeshifter;
      if c3 : bool
      then Raise (ValueError "snout_position must be None or between 20.0 and 421.0")
      else Ok ().

(** Lines 54-59. *)
Definition init_outfile (infile : string) (range_shifter snout_position outfile : pyval)
    : result string :=
  match outfile with
  | PyNone =>
      Ok (py_slice None (Some (-4)) infile +:+ "_RS" +:+ py_str range_shifter
          +:+ "_Snout" +:+ py_str snout_position +:+ ".dcm")
  | PyStr o =>
      if negb (bool_decide (py_slice (Some (-4)) None o = ".dcm"))
      then Ok (o +:+ ".dcm")
      else Ok o
  | _ => Raise (not_subscriptable outfile)
  end.

(** Lines 62-65. *)
Definition init_IsocentertoRangeShifterDistance (snout_position : pyval)
    : result (option pyval) :=
  let max_rs_rad := PyFloat F64.lit_461 in
  let max_snout_rad := PyFloat F64.lit_421 in
  if truthy snout_position
  then d ← py_sub max_rs_rad max_snout_rad;
       v ← py_add d snout_position;
       Ok (Some v)
  else Ok None.

(** [RangeShifter.__init__]. An exception leaves no object behind. *)
Definition init (infile plan_id snout_position range_shifter outfile : pyval)
    (add_rangeshifter : bool) : result RangeShifter :=
  infile' ← check_infile infile;
  rsid ← init_RangeShifterID range_shifter add_rangeshifter;
  plan_id' ← check_plan_id plan_id;
  _ ← check_snout_position snout_position add_rangeshifter;
  outfile' ← init_outfile infile' range_shifter snout_position outfile;
  dist ← init_IsocentertoRangeShifterDistance snout_position;
  Ok (mkRangeShifter rsid outfile' dist infile' plan_id' snout_position
        add_rangeshifter (PyInt 1) (PyInt 1) (PyStr "BINARY") (PyStr "IN")
        (PyInt 1) (PyFloat F64.lit_23) None).
End Constructor.

(** The errors the constructor raises itself, each naming its argument: the
    InvalidArgument class of the specification. *)
Definition init_errors : list exn :=
  [ TypeError "infile must be a string";
    ValueError "infile must include .dcm file extension";
    ValueError "range_shifter must be int, either: 2, 3 or 5";
    ValueError "range_shifter must be None or int (either: 2, 3 or 5)";
    TypeError "plan_id must be a string";
    TypeError "snout_position must be float or int";
    ValueError "snout_position must be between 20.0 and 421.0";
    ValueError "snout_position must be None or between 20.0 and 421.0" ].

Definition InvalidArgument (e : exn) : Prop := e ∈ init_errors.

Definition message (e : exn) : string :=
  match e with
  | TypeError m | ValueError m | AttributeError m | NameError m | IndexError m
  | OverflowError m | FileNotFoundError m | InvalidDicomError m => m
  end.

(** [needle in s] for text. *)
Fixpoint contains (needle s : string) : bool :=
  String.prefix needle s ||
  match s with
  | EmptyString => false
  | String _ rest => contains needle rest
  end.

(** ** The edit: [RangeShifter.add] *)

(** Lines 121-123: the identifier with its third character replaced. *)
Definition rewrite_uid (uid : string) : string :=
  py_slice (Some 0) (Some 2) uid +:+ "4" +:+ py_slice (Some 3) None uid.

(** Lines 103-106, the loop body of the add branch. The same two block
    objects are placed in every beam; nothing writes to them afterwards. *)
Definition add_beam (self : RangeShifter) (rs_seq : DeviceBlock.t)
    (rs_set_seq : SettingsBlock.t) (ion_beam_seq : IonBeam.t) : result IonBeam.t :=
  let b := IonBeam.set_NumberOfRangeShifters (NumberOfRangeShifters self) ion_beam_seq in
  cps ← getattr "Dataset" "IonControlPointSequence" (IonBeam.IonControlPointSequence b);
  cp ← first_item cps;
  let cps := <[0%nat := ControlPoint.set_SnoutPosition (SnoutPosition self) cp]> cps in
  let b := IonBeam.set_IonControlPointSequence cps b in
  let b := IonBeam.set_RangeShifterSequence [rs_seq] b in
  cps ← getattr "Dataset" "IonControlPointSequence" (IonBeam.IonControlPointSequence b);
  cp ← first_item cps;
  let cps := <[0%nat := ControlPoint.set_RangeShifterSettingsSequence [rs_set_seq] cp]> cps in
  Ok (IonBeam.set_IonControlPointSequence cps b).

(** Lines 88-106. *)
Definition add_new (self : RangeShifter) (ds : Plan.t) : result Plan.t :=
  rsid ← getattr "RangeShifter" "RangeShifterID" (RangeShifterID self);
  let rs_seq :=
    DeviceBlock.mk (Some (RangeShifterNumber self)) (Some rsid)
                   (Some (RangeShifterType self)) in
  dist ← getattr "RangeShifter" "IsocentertoRangeShifterDistance"
                 (IsocentertoRangeShifterDistance self);
  let rs_set_seq :=
    SettingsBlock.mk (Some (RangeShifterSetting self)) (Some dist)
                     (Some (RangeShifterWaterEquivalentThickness self))
                     (Some (ReferencedRangeShifterNumber self)) in
  beams ← getattr "FileDataset" "IonBeamSequence" (Plan.IonBeamSequence ds);
  beams' ← for_each (add_beam self rs_seq rs_set_seq) beams;
  Ok (Plan.set_IonBeamSequence beams' ds).

(** Lines 111-117, the loop body of the modify branch. In an assignment the
    right-hand side is evaluated before the target, so on line 113 the bare
    name [RangeShifterID] is looked up before the first device block is
    fetched. *)
Definition modify_beam (self : RangeShifter) (ion_beam_seq : IonBeam.t)
    : result IonBeam.t :=
  rsid ← getattr "RangeShifter" "RangeShifterID" (RangeShifterID self);
  b ← (if truthy rsid
       then
         seq ← getattr "Dataset" "RangeShifterSequence"
                       (IonBeam.RangeShifterSequence ion_beam_seq);
         v ← unbound_name "RangeShifterID";
         blk ← first_item seq;
         Ok (IonBeam.set_RangeShifterSequence
               (<[0%nat := DeviceBlock.set_RangeShifterID v blk]> seq) ion_beam_seq)
       else Ok ion_beam_seq);
  if truthy (SnoutPosition self)
  then
    cps ← getattr "Dataset" "IonControlPointSequence" (IonBeam.IonControlPointSequence b);
    cp ← first_item cps;
    let cps := <[0%nat := ControlPoint.set_SnoutPosition (SnoutPosition self) cp]> cps in
    let b := IonBeam.set_IonControlPointSequence cps b in
    cps ← getattr "Dataset" "IonControlPointSequence" (IonBeam.IonControlPointSequence b);
    cp ← first_item cps;
    settings ← getattr "Dataset" "RangeShifterSettingsSequence"
                       (ControlPoint.RangeShifterSettingsSequence cp);
    dist ← getattr "RangeShifter" "IsocentertoRangeShifterDistance"
                   (IsocentertoRangeShifterDistance self);
    st ← first_item settings;
    let settings :=
      <[0%nat := SettingsBlock.set_IsocenterToRangeShifterDistance dist st]> settings in
    let cps := <[0%nat := ControlPoint.set_RangeShifterSettingsSequence settings cp]> cps in
    Ok (IonBeam.set_IonControlPointSequence cps b)
  else Ok b.

(** Lines 110-117. *)
Definition modify_existing (self : RangeShifter) (ds : Plan.t) : result Plan.t :=
  beams ← getattr "FileDataset" "IonBeamSequence" (Plan.IonBeamSequence ds);
  beams' ← for_each (modify_beam self) beams;
  Ok (Plan.set_IonBeamSequence beams' ds).

(** [RangeShifter.add]: the document is a local until the last statement
    stores it in [self.ds]; the only output before that is the printed line,
    after everything that can raise. *)
Definition add (self : RangeShifter) (w : World) : result (RangeShifter * World) :=
  ds ← dcmread w (infile self);
  ds ← (if add_rangeshifter self then add_new self ds else modify_existing self ds);
  let ds := Plan.set_RTPlanLabel (RTPlanLabel self) ds in
  uid ← getattr "FileDataset" "SOPInstanceUID" (Plan.SOPInstanceUID ds);
  let ds := Plan.set_SOPInstanceUID (rewrite_uid uid) ds in
  let w := print ("Modified Plan File: " +:+ outfile self +:+ ", Plan ID: "
                  +:+ RTPlanLabel self +:+ ", UID: " +:+ rewrite_uid uid) w in
  Ok (set_ds ds self, w).

(** [RangeShifter.save]. *)
Definition save (self : RangeShifter) (w : World) : result (RangeShifter * World) :=
  ds ← getattr "RangeShifter" "ds" (ds self);
  Ok (self, save_as ds (outfile self) w).

(** Calling a method on an object in a world: an exception leaves both as
    they were, since neither method writes anything before its last
    statement that can raise. *)
Definition call (method : RangeShifter → World → result (RangeShifter * World))
    (st : RangeShifter * World) : option exn * (RangeShifter * World) :=
  match method st.1 st.2 with
  | Ok st' => (None, st')
  | Raise e => (Some e, st)
  end.

(** ** Vocabulary of the properties *)

(** [20.0 <= p <= 421.0]. *)
Definition in_range (p : pyval) : Prop :=
  py_le (PyFloat F64.lit_20) p = Ok true ∧ py_le p (PyFloat F64.lit_421) = Ok true.

(** [p] is not a number at all, or [p < 20.0], or [p > 421.0]. This is what
    the source tests, not the complement of [in_range]: the float NaN is
    neither in range nor out of range in this sense. *)
Definition out_of_range (p : pyval) : Prop :=
  isinstance_float_int p = false
  ∨ py_lt p (PyFloat F64.lit_20) = Ok true
  ∨ py_gt p (PyFloat F64.lit_421) = Ok true.

(** What both validation branches of the snout position let through. *)
Definition passes_range_tests (p : pyval) : Prop :=
  py_gt p (PyFloat F64.lit_421) = Ok false ∧ py_lt p (PyFloat F64.lit_20) = Ok false.

(** A text path with the [.dcm] extension. *)
Definition dcm_path (v : pyval) : Prop :=
  ∃ s, v = PyStr s ∧ py_slice (Some (-4)) None s = ".dcm".

Definition outfile_ok (v : pyval) : Prop :=
  v = PyNone ∨ isinstance_str v = true.

(** [v in [2,3,5]]. *)
Definition is_supported_thickness (v : pyval) : bool :=
  py_in v [PyInt 2; PyInt 3; PyInt 5].

Definition has_first_control_point (b : IonBeam.t) : Prop :=
  ∃ cp cps, IonBeam.IonControlPointSequence b = Some (cp :: cps).

(** A beam with exactly one device block, and whose first control point has
    exactly one settings block, the given snout position and the given
    isocenter distance. *)
Definition one_block_each (snout dist : pyval) (b : IonBeam.t) : Prop :=
  ∃ dev cp cps st,
    IonBeam.RangeShifterSequence b = Some [dev]
    ∧ IonBeam.IonControlPointSequence b = Some (cp :: cps)
    ∧ ControlPoint.RangeShifterSettingsSequence cp = Some [st]
    ∧ ControlPoint.SnoutPosition cp = Some snout
    ∧ SettingsBlock.IsocenterToRangeShifterDistance st = Some dist.

(** A value other than 2, 3 and 5 under Python's [==]; [None] is one. *)
Definition other_thickness (v : pyval) : Prop :=
  py_eq v (PyInt 2) = false ∧ py_eq v (PyInt 3) = false ∧ py_eq v (PyInt 5) = false.


(** ** Sample data *)

(** The inputs below contain no float, so nothing is ever printed with it. *)
Definition no_float_printed (f : spec_float) : string := "".

Definition sample_control_point : ControlPoint.t :=
  ControlPoint.mk (Some (PyFloat (F64.of_Z 30)))
    (Some [SettingsBlock.mk (Some (PyStr "IN")) (Some (PyFloat (F64.of_Z 70)))
                            (Some (PyFloat F64.lit_23)) (Some (PyInt 1))]).

Definition sample_beam : IonBeam.t :=
  IonBeam.mk (Some (PyInt 1))
    (Some [DeviceBlock.mk (Some (PyInt 1)) (Some (PyStr "RS=2cm")) (Some (PyStr "BINARY"))])
    (Some [sample_control_point; ControlPoint.mk None None]).

Definition sample_plan : Plan.t :=
  Plan.mk (Some "OLD") (Some "1.2.840.99999") (Some [sample_beam; sample_beam]).

Definition sample_world : World :=
  mkWorld {[ "plan.dcm" := DicomFile sample_plan ]} [].

(** [RangeShifter("plan.dcm", "P", 250, 3)]. *)
Definition sample_adder : RangeShifter :=
  mkRangeShifter (Some (PyStr "RS=3cm")) "plan_RS3_Snout250.dcm"
    (Some (PyFloat (F64.of_Z 290))) "plan.dcm" "P" (PyInt 250) true
    (PyInt 1) (PyInt 1) (PyStr "BINARY") (PyStr "IN") (PyInt 1)
    (PyFloat F64.lit_23) None.

(** [RangeShifter("plan.dcm", "P", 100, 3, add_rangeshifter=False)]. *)
Definition sample_modifier : RangeShifter :=
  mkRangeShifter (Some (PyStr "RS=3cm")) "plan_RS3_Snout100.dcm"
    (Some (PyFloat (F64.of_Z 140))) "plan.dcm" "P" (PyInt 100) false
    (PyInt 1) (PyInt 1) (PyStr "BINARY") (PyStr "IN") (PyInt 1)
    (PyFloat F64.lit_23) None.

(** [RangeShifter("plan.dcm", "P", 100, add_rangeshifter=False)]. *)
Definition sample_snout_modifier : RangeShifter :=
  mkRangeShifter None "plan_RSNone_Snout100.dcm"
    (Some (PyFloat (F64.of_Z 140))) "plan.dcm" "P" (PyInt 100) false
    (PyInt 1) (PyInt 1) (PyStr "BINARY") (PyStr "IN") (PyInt 1)
    (PyFloat F64.lit_23) None.

(** The object a thickness-only modify request would be, had the constructor
    let it through: identifier set, no snout position, no distance. *)
Definition thickness_only_modifier : RangeShifter :=
  mkRangeShifter (Some (PyStr "RS=2cm")) "plan_RS2_SnoutNone.dcm"
    None "plan.dcm" "P" PyNone false
    (PyInt 1) (PyInt 1) (PyStr "BINARY") (PyStr "IN") (PyInt 1)
    (PyFloat F64.lit_23) None.

(** ** Further vocabulary *)

(** [s[-4:] == '.dcm']. *)
Definition ends_with_dcm (s : string) : Prop :=
  py_slice (Some (-4)) None s = ".dcm".

(** The thickness rule of a mode: 2, 3 or 5, and when modifying also [None]. *)
Definition thickness_ok (rs : pyval) (add : bool) : Prop :=
  is_supported_thickness rs = true ∨ (add = false ∧ rs = PyNone).

Global Instance spec_float_eq_dec : EqDecision spec_float.
Proof. solve_decision. Defined.

(** Lines 87-117 of [add]: the branch taken by the editor's mode. *)
Definition edit_branch (self : RangeShifter) (d : Plan.t) : result Plan.t :=
  if add_rangeshifter self then add_new self d else modify_existing self d.

(** Line 123: the line [add] prints for a document whose identifier was
    [uid]. *)
Definition confirmation_line (self : RangeShifter) (uid : string) : string :=
  "Modified Plan File: " +:+ outfile self +:+ ", Plan ID: " +:+ RTPlanLabel self
  +:+ ", UID: " +:+ rewrite_uid uid.

(** Lines 120-122 applied to a document whose identifier was [uid]. *)
Definition relabelled (self : RangeShifter) (uid : string) (d : Plan.t) : Plan.t :=
  Plan.set_SOPInstanceUID (rewrite_uid uid) (Plan.set_RTPlanLabel (RTPlanLabel self) d).

(** The two blocks of lines 89-99, for an identifier and a distance. *)
Definition fresh_device_block (rsid : pyval) : DeviceBlock.t :=
  DeviceBlock.mk (Some (PyInt 1)) (Some rsid) (Some (PyStr "BINARY")).

Definition fresh_settings_block (dist : pyval) : SettingsBlock.t :=
  SettingsBlock.mk (Some (PyStr "IN")) (Some dist) (Some (PyFloat F64.lit_23))
                   (Some (PyInt 1)).

(** ** Further sample data *)

(** The sample editor and world after [add]. *)
Definition sample_after_add : RangeShifter * World :=
  match add sample_adder sample_world with
  | Ok st => st
  | Raise _ => (sample_adder, sample_world)
  end.

(** [RangeShifter("plan.dcm", "P", 250, 3, "plan.dcm")]: output onto input. *)
Definition sample_inplace : RangeShifter :=
  mkRangeShifter (Some (PyStr "RS=3cm")) "plan.dcm"
    (Some (PyFloat (F64.of_Z 290))) "plan.dcm" "P" (PyInt 250) true
    (PyInt 1) (PyInt 1) (PyStr "BINARY") (PyStr "IN") (PyInt 1)
    (PyFloat F64.lit_23) None.

(** A beam whose control point sequence is empty, and a plan that has it
    after a good beam. *)
Definition beam_without_control_points : IonBeam.t :=
  IonBeam.mk None None (Some []).

Definition plan_with_bad_beam : Plan.t :=
  Plan.mk (Some "OLD") (Some "1.2.840.99999")
          (Some [sample_beam; beam_without_control_points; sample_beam]).

Definition world_with_bad_beam : World :=
  mkWorld {[ "plan.dcm" := DicomFile plan_with_bad_beam ]} [].

(** A plan without beams. *)
Definition plan_without_beams : Plan.t :=
  Plan.mk (Some "OLD") (Some "1.2.840.99999") (Some []).

Definition world_without_beams : World :=
  mkWorld {[ "plan.dcm" := DicomFile plan_without_beams ]} [].

Definition empty_world : World := mkWorld ∅ [].

(** The float 250.5, and the editor
    [RangeShifter("plan.dcm", "P", 250.5, 3, "out.dcm")]. *)
Definition float_250_5 : spec_float := S754_finite false 8813685208252416 (-45).

Definition sample_float_adder : RangeShifter :=
  mkRangeShifter (Some (PyStr "RS=3cm")) "out.dcm"
    (Some (PyFloat (S754_finite false 5110530045902848 (-44)))) "plan.dcm" "P"
    (PyFloat float_250_5) true
    (PyInt 1) (PyInt 1) (PyStr "BINARY") (PyStr "IN") (PyInt 1)
    (PyFloat F64.lit_23) None.

(** The value multiplicity separator of DICOM text, and text free of it:
    such text is stored by the dataset as the single value it is. *)
Definition backslash : ascii := ascii_of_nat 92.

Definition no_backslash (s : string) : Prop :=
  contains (String backslash EmptyString) s = false.

(** The sample editor and world after [add] and then [save]. *)
Definition sample_after_save : RangeShifter * World :=
  match save sample_after_add.1 sample_after_add.2 with
  | Ok st => st
  | Raise _ => sample_after_add
  end.

(** * Properties *)

(** ** Text *)

Example str_of_Z_3 : str_of_Z 3 = "3".
Proof. reflexivity. Qed.

Example py_slice_suffix : py_slice (Some (-4)) None "plan.dcm" = ".dcm".
Proof. reflexivity. Qed.

Example py_slice_stem : py_slice None (Some (-4)) "plan.dcm" = "plan".
Proof. reflexivity. Qed.

Example py_slice_short : py_slice (Some (-4)) None "ab" = "ab".
Proof. reflexivity. Qed.

Example lit_461_minus_421 : F64.sub F64.lit_461 F64.lit_421 = F64.lit_40.
Proof. vm_compute. reflexivity. Qed.

Lemma substring_all (s : string) : substring 0 (String.length s) s = s.
Proof. induction s as [|c s IH]; simpl; [done | by rewrite IH]. Qed.

Lemma rewrite_uid_long (a b c : ascii) (r : string) :
  rewrite_uid (String a (String b (String c r))) = String a (String b (String "4" r)).
Proof.
  unfold rewrite_uid, py_slice, slice_index. cbn [from_option].
  set (len := Z.of_nat _).
  assert (Hlen : len = 3 + Z.of_nat (String.length r)) by (subst len; simpl String.length; lia).
  change (0 <? 0) with false. change (2 <? 0) with false. change (3 <? 0) with false.
  cbv iota.
  replace (Z.to_nat (Z.max 0 (Z.min len 0))) with 0%nat by lia.
  replace (Z.to_nat (Z.max 0 (Z.min len 2) - Z.max 0 (Z.min len 0))) with 2%nat by lia.
  replace (Z.to_nat (Z.max 0 (Z.min len 3))) with 3%nat by lia.
  replace (Z.to_nat (len - Z.max 0 (Z.min len 3))) with (String.length r) by lia.
  simpl. by rewrite substring_all.
Qed.

Lemma rewrite_uid_get (uid : string) :
  (3 ≤ String.length uid)%nat →
  String.length (rewrite_uid uid) = String.length uid ∧
  String.get 2 (rewrite_uid uid) = Some "4"%char ∧
  (∀ i : nat, i ≠ 2%nat → String.get i (rewrite_uid uid) = String.get i uid).
Proof.
  destruct uid as [|a [|b [|c r]]]; simpl; try lia.
  intros _. rewrite rewrite_uid_long. repeat split.
  intros [|[|[|i]]] Hi; simpl; congruence.
Qed.

Lemma rewrite_uid_fixed_iff (uid : string) :
  rewrite_uid uid ≠ uid ↔ String.get 2 uid ≠ Some "4"%char.
Proof.
  destruct uid as [|a [|b [|c r]]].
  - split; intros _; [simpl | change (rewrite_uid "") with "4"]; congruence.
  - split; intros _;
      [simpl | change (rewrite_uid (String a "")) with (String a "4")]; congruence.
  - split; intros _;
      [simpl | change (rewrite_uid (String a (String b "")))
                 with (String a (String b "4"))]; congruence.
  - rewrite rewrite_uid_long. simpl. split; intros H1 H2; apply H1; congruence.
Qed.

Lemma compare_Z_lit_20 (z : Z) : F64.compare_Z z F64.lit_20 = Some (z ?= 20).
Proof.
  unfold F64.compare_Z, F64.lit_20. cbn [cond_Zopp]. f_equal.
  destruct (Z.compare_spec z 20);
    [apply Z.compare_eq_iff | apply Z.compare_lt_iff | apply Z.compare_gt_iff]; lia.
Qed.

Lemma compare_Z_lit_421 (z : Z) : F64.compare_Z z F64.lit_421 = Some (z ?= 421).
Proof.
  unfold F64.compare_Z, F64.lit_421. cbn [cond_Zopp]. f_equal.
  destruct (Z.compare_spec z 421);
    [apply Z.compare_eq_iff | apply Z.compare_lt_iff | apply Z.compare_gt_iff]; lia.
Qed.

Lemma bind_Ok {A B} (m : result A) (f : A → result B) (b : B) :
  m ≫= f = Ok b → ∃ a, m = Ok a ∧ f a = Ok b.
Proof. destruct m as [a|e]; [eauto | discriminate]. Qed.

Lemma SFcompare_antisym (f g : spec_float) :
  SFcompare g f = CompOpp <$> SFcompare f g.
Proof.
  destruct f as [s|s| |s m e], g as [s'|s'| |s' m' e']; try reflexivity;
    try (destruct s; reflexivity); try (destruct s'; reflexivity);
    try (destruct s, s'; reflexivity).
  destruct s, s'; try reflexivity; simpl; f_equal;
    rewrite (Z.compare_antisym e' e); destruct (e' ?= e); simpl; try reflexivity;
    rewrite (Pos.compare_cont_antisym m m' Eq); simpl;
    destruct (Pos.compare_cont Eq m' m); reflexivity.
Qed.

Lemma in_range_passes (p : pyval) : in_range p → passes_range_tests p.
Proof.
  intros [Hlo Hhi]. destruct p as [|b|z|f|s]; try discriminate.
  - destruct b; discriminate.
  - revert Hlo Hhi. unfold passes_range_tests, py_le, py_gt, py_lt, py_compare, as_num, num_compare.
    rewrite compare_Z_lit_20, compare_Z_lit_421. simpl.
    destruct (Z.compare_spec z 20), (Z.compare_spec z 421); simpl; try done; lia.
  - revert Hlo Hhi. unfold passes_range_tests, py_le, py_gt, py_lt, py_compare, as_num, num_compare.
    rewrite (SFcompare_antisym f F64.lit_20).
    destruct (SFcompare f F64.lit_20) as [[]|], (SFcompare f F64.lit_421) as [[]|];
      simpl; done.
Qed.

Lemma passes_is_number (p : pyval) :
  passes_range_tests p → isinstance_float_int p = true ∧ py_eq p PyNone = false.
Proof. intros [H _]. destruct p; try discriminate; done. Qed.

Lemma passes_truthy (p : pyval) : passes_range_tests p → truthy p = true.
Proof.
  intros [_ H]. destruct p as [|b|z|f|s]; try discriminate.
  - destruct b; discriminate.
  - revert H. unfold py_lt, py_compare, as_num, num_compare.
    rewrite compare_Z_lit_20. simpl.
    destruct (Z.compare_spec z 20); try discriminate; intros _;
      apply negb_true_iff, Z.eqb_neq; lia.
  - destruct f; done.
Qed.

Lemma small_int_converts (z : Z) :
  20 ≤ z ≤ 421 → float_of_int z = Ok (F64.of_Z z).
Proof.
  intros Hz. unfold float_of_int.
  assert (H : forallb (λ k, negb (F64.is_infinity (F64.of_Z (20 + Z.of_nat k))))
                      (seq 0 402) = true) by (vm_compute; reflexivity).
  rewrite forallb_forall in H.
  specialize (H (Z.to_nat (z - 20))).
  rewrite Z2Nat.id in H by lia. replace (20 + (z - 20)) with z in H by lia.
  rewrite (proj1 (negb_true_iff _) (H ltac:(apply in_seq; lia))). done.
Qed.

(** What [40.0 + p] evaluates to once [p] passed validation. *)
Lemma passes_distance (p : pyval) :
  passes_range_tests p →
  ∃ v, py_add (PyFloat F64.lit_40) p = Ok (PyFloat v).
Proof.
  intros [Hhi Hlo]. destruct p as [|b|z|f|s]; try discriminate.
  - destruct b; discriminate.
  - revert Hhi Hlo. unfold py_gt, py_lt, py_compare, py_add, as_num, num_compare.
    rewrite compare_Z_lit_20, compare_Z_lit_421. simpl. intros Hhi Hlo.
    rewrite small_int_converts; [simpl; eauto|].
    destruct (Z.compare_spec z 20), (Z.compare_spec z 421); try discriminate; lia.
  - simpl. eauto.
Qed.

Section ConstructorFacts.
Variable float_repr : spec_float → string.

Lemma check_snout_position_accepts (p : pyval) (add : bool) :
  passes_range_tests p → check_snout_position p add = Ok ().
Proof.
  intros Hp. destruct (passes_is_number p Hp) as [Hnum Hnone].
  destruct Hp as [Hhi Hlo].
  unfold check_snout_position, snout_not_a_number, snout_out_of_range_adding,
    snout_out_of_range_modifying.
  rewrite Hhi, Hlo, Hnum, Hnone. by destruct add.
Qed.

Lemma check_snout_position_inv (p : pyval) (add : bool) :
  check_snout_position p add = Ok () → passes_range_tests p.
Proof.
  unfold check_snout_position, snout_not_a_number, snout_out_of_range_adding,
    snout_out_of_range_modifying, passes_range_tests.
  destruct add; simpl.
  - destruct (isinstance_float_int p) eqn:Hnum; simpl; [|done].
    destruct (py_gt p _) as [[]|]; simpl; try done.
    destruct (py_lt p _) as [[]|]; simpl; done.
  - destruct (py_gt p _) as [[]|]; simpl; try done.
    destruct (py_lt p _) as [[]|]; simpl; try done.
Qed.

Lemma check_snout_position_add_rejects (p : pyval) :
  out_of_range p →
  ∃ e, check_snout_position p true = Raise e ∧ InvalidArgument e.
Proof.
  unfold check_snout_position, snout_not_a_number, snout_out_of_range_adding,
    snout_out_of_range_modifying, out_of_range, InvalidArgument, init_errors. simpl.
  destruct (isinstance_float_int p) eqn:Hnum; simpl.
  - intros [?|[Hlo|Hhi]]; [done| |].
    + rewrite Hlo. destruct (py_gt p _) as [[]|] eqn:Hgt; simpl.
      * eexists; split; [done | set_solver].
      * eexists; split; [done | set_solver].
      * destruct p; done.
    + rewrite Hhi. simpl. eexists; split; [done | set_solver].
  - intros _. eexists; split; [done | set_solver].
Qed.

Lemma init_IsocentertoRangeShifterDistance_passes (p : pyval) :
  passes_range_tests p →
  ∃ v, init_IsocentertoRangeShifterDistance p = Ok (Some (PyFloat v))
       ∧ py_add (PyFloat F64.lit_40) p = Ok (PyFloat v).
Proof.
  intros Hp. destruct (passes_distance p Hp) as [v Hv]. exists v. split; [|done].
  unfold init_IsocentertoRangeShifterDistance. rewrite (passes_truthy p Hp).
  change (py_sub (PyFloat F64.lit_461) (PyFloat F64.lit_421))
    with (Ok (PyFloat F64.lit_40)).
  cbn [mbind result_bind]. by rewrite Hv.
Qed.

Lemma init_inv (infile plan_id p rs outfile : pyval) (add : bool) (self : RangeShifter) :
  init float_repr infile plan_id p rs outfile add = Ok self →
  ∃ infile' rsid plan_id' outfile' dist,
    check_infile infile = Ok infile'
    ∧ init_RangeShifterID float_repr rs add = Ok rsid
    ∧ check_plan_id plan_id = Ok plan_id'
    ∧ check_snout_position p add = Ok ()
    ∧ init_outfile float_repr infile' rs p outfile = Ok outfile'
    ∧ init_IsocentertoRangeShifterDistance p = Ok dist
    ∧ self = mkRangeShifter rsid outfile' dist infile' plan_id' p add
               (PyInt 1) (PyInt 1) (PyStr "BINARY") (PyStr "IN") (PyInt 1)
               (PyFloat F64.lit_23) None.
Proof.
  unfold init. intros H.
  apply bind_Ok in H as (infile' & H1 & H).
  apply bind_Ok in H as (rsid & H2 & H).
  apply bind_Ok in H as (plan_id' & H3 & H).
  apply bind_Ok in H as ([] & H4 & H).
  apply bind_Ok in H as (outfile' & H5 & H).
  apply bind_Ok in H as (dist & H6 & H).
  injection H as <-. by exists infile', rsid, plan_id', outfile', dist.
Qed.

Lemma init_succeeds (infile plan_id p rs outfile : pyval) (add : bool) :
  dcm_path infile → isinstance_str plan_id = true → passes_range_tests p →
  (is_supported_thickness rs = true ∨ (add = false ∧ rs = PyNone)) →
  outfile_ok outfile →
  ∃ self, init float_repr infile plan_id p rs outfile add = Ok self.
Proof.
  intros (s & -> & Hs) Hplan Hp Hrs Hout. unfold init.
  unfold check_infile. rewrite Hs. simpl.
  assert (∃ rsid, init_RangeShifterID float_repr rs add = Ok rsid) as [rsid ->].
  { unfold init_RangeShifterID. fold (is_supported_thickness rs).
    destruct Hrs as [-> | [-> ->]]; simpl; eauto. }
  simpl. destruct plan_id; try done. simpl.
  rewrite (check_snout_position_accepts p add Hp). simpl.
  assert (∃ o, init_outfile float_repr s rs p outfile = Ok o) as [o ->].
  { destruct Hout as [-> | Hstr]; simpl; [eauto|].
    destruct outfile; try done. simpl. case_match; eauto. }
  simpl.
  destruct (init_IsocentertoRangeShifterDistance_passes p Hp) as (v & -> & _).
  simpl. eauto.
Qed.
End ConstructorFacts.

Lemma for_each_Forall2 {A} (body : A → result A) (xs ys : list A) :
  for_each body xs = Ok ys ↔ Forall2 (λ x y, body x = Ok y) xs ys.
Proof.
  revert ys. induction xs as [|x xs IH]; intros ys; simpl.
  - split; [intros [= <-]; constructor | by inversion 1].
  - split.
    + intros H. apply bind_Ok in H as (x' & Hx & H).
      apply bind_Ok in H as (rest & Hrest & [= <-]).
      constructor; [done | by apply IH].
    + inversion 1 as [|? y ? rest Hx Hrest]; subst. rewrite Hx. simpl.
      apply IH in Hrest. by rewrite Hrest.
Qed.

Lemma for_each_total {A} (body : A → result A) (P Q : A → Prop) (xs : list A) :
  (∀ x, P x → ∃ y, body x = Ok y ∧ Q y) →
  Forall P xs →
  ∃ ys, for_each body xs = Ok ys ∧ Forall Q ys ∧ length ys = length xs.
Proof.
  intros Hbody. induction 1 as [|x xs Hx _ (ys & Hys & HQ & Hlen)]; simpl.
  - exists []. by repeat split.
  - destruct (Hbody x Hx) as (y & -> & Hy). simpl. rewrite Hys. simpl.
    exists (y :: ys). repeat split; [by constructor | simpl; by rewrite Hlen].
Qed.

Lemma for_each_first_raises {A} (body : A → result A) (x : A) (xs : list A) :
  raised (body x) → raised (for_each body (x :: xs)).
Proof. intros [e He]. exists e. simpl. by rewrite He. Qed.

Lemma add_beam_one_block (self : RangeShifter) (dev : DeviceBlock.t)
    (st : SettingsBlock.t) (dist : pyval) (b : IonBeam.t) :
  SettingsBlock.IsocenterToRangeShifterDistance st = Some dist →
  has_first_control_point b →
  ∃ b', add_beam self dev st b = Ok b' ∧ one_block_each (SnoutPosition self) dist b'.
Proof.
  intros Hst (cp & cps & Hcps). unfold add_beam. simpl. rewrite Hcps. simpl.
  eexists. split; [done|]. unfold one_block_each. simpl.
  eexists dev, _, cps, st. by repeat split.
Qed.

Lemma modify_beam_raises (self : RangeShifter) (b : IonBeam.t) :
  (RangeShifterID self = None
   ∨ ∃ v, RangeShifterID self = Some v ∧ truthy v = true) →
  raised (modify_beam self b).
Proof.
  unfold modify_beam. intros [-> | (v & -> & Hv)]; simpl; [by eexists|].
  rewrite Hv. destruct (IonBeam.RangeShifterSequence b); simpl; by eexists.
Qed.

Example sample_adder_built :
  init no_float_printed (PyStr "plan.dcm") (PyStr "P") (PyInt 250) (PyInt 3) PyNone true
  = Ok sample_adder.
Proof. vm_compute. reflexivity. Qed.

Example sample_modifier_built :
  init no_float_printed (PyStr "plan.dcm") (PyStr "P") (PyInt 100) (PyInt 3) PyNone false
  = Ok sample_modifier.
Proof. vm_compute. reflexivity. Qed.

Example sample_snout_modifier_built :
  init no_float_printed (PyStr "plan.dcm") (PyStr "P") (PyInt 100) PyNone PyNone false
  = Ok sample_snout_modifier.
Proof. vm_compute. reflexivity. Qed.

(** ** Construction: which errors, and when *)

Ltac invalid_argument :=
  unfold InvalidArgument, init_errors; set_solver.

Section Validation.
Variable float_repr : spec_float → string.

Lemma check_infile_raise (v : pyval) (e : exn) :
  check_infile v = Raise e → InvalidArgument e.
Proof.
  destruct v; simpl; try (intros [= <-]; invalid_argument).
  case_match; intros [= <-]. invalid_argument.
Qed.

Lemma init_RangeShifterID_raise (rs : pyval) (add : bool) (e : exn) :
  init_RangeShifterID float_repr rs add = Raise e → InvalidArgument e.
Proof.
  unfold init_RangeShifterID.
  repeat case_match; intros [= <-]; invalid_argument.
Qed.

Lemma check_plan_id_raise (v : pyval) (e : exn) :
  check_plan_id v = Raise e → InvalidArgument e.
Proof. destruct v; simpl; intros [= <-]; invalid_argument. Qed.

(** A failure of the thickness, label or (with an InvalidArgument) snout
    check makes construction fail with an InvalidArgument: whatever is
    checked before them raises errors of that class only. *)
Lemma init_fails_by (infile plan_id p rs outfile : pyval) (add : bool) :
  raised (init_RangeShifterID float_repr rs add)
  ∨ raised (check_plan_id plan_id)
  ∨ (∃ e, check_snout_position p add = Raise e ∧ InvalidArgument e) →
  ∃ e, init float_repr infile plan_id p rs outfile add = Raise e ∧ InvalidArgument e.
Proof.
  intros H. unfold init.
  destruct (check_infile infile) as [infile'|e] eqn:H1; simpl;
    [|eauto using check_infile_raise].
  destruct (init_RangeShifterID float_repr rs add) as [rsid|e] eqn:H2; simpl;
    [|eauto using init_RangeShifterID_raise].
  destruct (check_plan_id plan_id) as [plan_id'|e] eqn:H3; simpl;
    [|eauto using check_plan_id_raise].
  destruct H as [[e H]|[[e H]|(e & H & He)]]; try discriminate.
  rewrite H. simpl. eauto.
Qed.



Lemma other_thickness_int (z : Z) :
  z ≠ 2 → z ≠ 3 → z ≠ 5 → other_thickness (PyInt z).
Proof.
  intros. unfold other_thickness, py_eq, as_num, num_compare.
  repeat split;
    [destruct (Z.compare_spec z 2) | destruct (Z.compare_spec z 3)
     | destruct (Z.compare_spec z 5)]; try reflexivity; lia.
Qed.

Lemma other_thickness_None : other_thickness PyNone.
Proof. by repeat split. Qed.


(** C9, as the code has it. Construction fails with an InvalidArgument
    whenever the plan label is not text; every text label, the empty one
    included, is accepted (the other arguments being valid) and kept as
    given. *)
Theorem plan_label_must_be_text (path label snout thickness out : pyval) (add : bool) :
  (isinstance_str label = false →
   ∃ e, init float_repr path label snout thickness out add = Raise e ∧ InvalidArgument e)
  ∧ (∀ s, dcm_path path → in_range snout →
          is_supported_thickness thickness = true → outfile_ok out →
          ∃ self, init float_repr path (PyStr s) snout thickness out add = Ok self
                  ∧ RTPlanLabel self = s).
Proof.
  split.
  - intros Hlabel. apply init_fails_by. right; left.
    destruct label; try discriminate; by eexists.
  - intros s Hpath Hp Hth Hout.
    destruct (init_succeeds float_repr path (PyStr s) snout thickness out add)
      as [self Hself]; auto using in_range_passes.
    exists self. split; [done|].
    by apply init_inv in Hself as (i & r & l & o & dist & _ & _ & [= <-] & _ & _ & _ & ->).
Qed.
End Validation.

(** ** The edit *)

Lemma init_RangeShifterID_add_set (float_repr : spec_float → string)
    (rs : pyval) (r : option pyval) :
  init_RangeShifterID float_repr rs true = Ok r → ∃ v, r = Some v.
Proof.
  unfold init_RangeShifterID. repeat case_match; intros [= <-]; eauto; done.
Qed.

Lemma init_RangeShifterID_truthy (float_repr : spec_float → string)
    (rs : pyval) (add : bool) (v : pyval) :
  init_RangeShifterID float_repr rs add = Ok (Some v) → truthy v = true.
Proof.
  unfold init_RangeShifterID. repeat case_match; intros [= <-]. reflexivity.
Qed.

Lemma add_Ok_inv (self self' : RangeShifter) (w w' : World) :
  add self w = Ok (self', w') →
  ∃ d, self' = set_ds d self ∧ files w' = files w.
Proof.
  unfold add. intros H.
  apply bind_Ok in H as (d0 & _ & H).
  apply bind_Ok in H as (d1 & _ & H).
  apply bind_Ok in H as (uid & _ & H).
  injection H as <- <-. eauto.
Qed.

(** C1. In add mode, on a document with N ion-beam entries whose beams each
    have a first control point, the edit succeeds and leaves N entries; every
    entry has exactly one device block, its first control point has exactly
    one settings block and the requested snout position, and the settings
    block carries the distance 40.0 + snout computed at construction. *)
Theorem add_mode_one_block_per_beam (float_repr : spec_float → string)
    (path label snout thickness out : pyval)
    (self : RangeShifter) (w : World) (d : Plan.t)
    (beams : list IonBeam.t) (uid : string) :
  init float_repr path label snout thickness out true = Ok self →
  files w !! infile self = Some (DicomFile d) →
  Plan.IonBeamSequence d = Some beams →
  Plan.SOPInstanceUID d = Some uid →
  Forall has_first_control_point beams →
  ∃ self' w' d' beams' dist,
    add self w = Ok (self', w')
    ∧ ds self' = Some d'
    ∧ Plan.IonBeamSequence d' = Some beams'
    ∧ length beams' = length beams
    ∧ IsocentertoRangeShifterDistance self = Some dist
    ∧ py_add (PyFloat F64.lit_40) snout = Ok dist
    ∧ Forall (one_block_each snout dist) beams'.
Proof.
  intros Hinit Hfile Hbeams Huid Hcps.
  apply init_inv in Hinit as (i & r & l & o & dist & _ & Hr & _ & Hsnout & _ & Hdist & ->).
  apply check_snout_position_inv in Hsnout.
  destruct (init_IsocentertoRangeShifterDistance_passes snout Hsnout) as (v & Hv & Hadd).
  rewrite Hv in Hdist. injection Hdist as <-.
  apply init_RangeShifterID_add_set in Hr as [rsid ->].
  cbn [infile] in Hfile.
  set (self := mkRangeShifter _ _ _ _ _ _ _ _ _ _ _ _ _ _).
  set (dev := DeviceBlock.mk (Some (PyInt 1)) (Some rsid) (Some (PyStr "BINARY"))).
  set (st := SettingsBlock.mk (Some (PyStr "IN")) (Some (PyFloat v))
                              (Some (PyFloat F64.lit_23)) (Some (PyInt 1))).
  destruct (for_each_total (add_beam self dev st) has_first_control_point
              (one_block_each snout (PyFloat v)) beams)
    as (beams' & Hloop & Hall & Hlen); [|done|].
  { intros b Hb. by apply (add_beam_one_block self dev st (PyFloat v) b). }
  exists (set_ds (Plan.set_SOPInstanceUID (rewrite_uid uid)
                    (Plan.set_RTPlanLabel l (Plan.set_IonBeamSequence beams' d))) self).
  eexists. exists (Plan.set_SOPInstanceUID (rewrite_uid uid)
                    (Plan.set_RTPlanLabel l (Plan.set_IonBeamSequence beams' d))).
  exists beams', (PyFloat v).
  split; [|by repeat split].
  unfold add, dcmread. cbn [infile self]. rewrite Hfile.
  cbn [mbind result_bind add_rangeshifter self]. unfold add_new.
  cbn [RangeShifterID IsocentertoRangeShifterDistance self getattr mbind result_bind].
  rewrite Hbeams. cbn [getattr mbind result_bind].
  change (for_each _ beams) with (for_each (add_beam self dev st) beams).
  rewrite Hloop. cbn [mbind result_bind].
  cbn [Plan.set_RTPlanLabel Plan.set_IonBeamSequence Plan.SOPInstanceUID].
  rewrite Huid. reflexivity.
Qed.

(** C10. On a freshly constructed editor, in either mode, [save] raises and
    leaves the files as they were; the same holds after an [add] that
    raised. Only an [add] that ran to completion stores the document, which
    [save] then writes to the output path. *)
Theorem save_needs_completed_add (float_repr : spec_float → string)
    (path label snout thickness out : pyval) (mode : bool)
    (self : RangeShifter) (w : World) :
  init float_repr path label snout thickness out mode = Ok self →
  let no_ds := AttributeError "'RangeShifter' object has no attribute 'ds'" in
  call save (self, w) = (Some no_ds, (self, w))
  ∧ (∀ e st, call add (self, w) = (Some e, st) →
       call save st = (Some no_ds, st) ∧ files st.2 = files w)
  ∧ (∀ self' w', add self w = Ok (self', w') →
       ∃ d, ds self' = Some d
            ∧ files w' = files w
            ∧ call save (self', w')
              = (None, (self', save_as d (outfile self') w'))).
Proof.
  intros Hinit no_ds.
  assert (Hds : ds self = None).
  { by apply init_inv in Hinit as (i & r & l & o & dist & _ & _ & _ & _ & _ & _ & ->). }
  assert (Hsave : call save (self, w) = (Some no_ds, (self, w))).
  { unfold call, save. simpl. by rewrite Hds. }
  split; [done|]. split.
  - intros e st. unfold call at 1. simpl.
    destruct (add self w) as [st'|e']; intros [= <- <-]. by rewrite Hsave.
  - intros self' w' Hadd. apply add_Ok_inv in Hadd as (d & -> & Hfiles).
    exists d. by repeat split.
Qed.

(** In modify mode every beam makes the loop body raise: the identifier
    attribute is either missing (no thickness given) or text that is not
    empty, and then line 113 reads the unbound name. So [add] raises on every
    document that has a beam. *)
Lemma modify_mode_raises (float_repr : spec_float → string)
    (path label snout thickness out : pyval)
    (self : RangeShifter) (w : World) (d : Plan.t)
    (b : IonBeam.t) (bs : list IonBeam.t) :
  init float_repr path label snout thickness out false = Ok self →
  files w !! infile self = Some (DicomFile d) →
  Plan.IonBeamSequence d = Some (b :: bs) →
  raised (add self w).
Proof.
  intros Hinit Hfile Hbeams.
  apply init_inv in Hinit as (i & r & l & o & dist & _ & Hr & _ & _ & _ & _ & ->).
  cbn [infile] in Hfile.
  set (self := mkRangeShifter _ _ _ _ _ _ _ _ _ _ _ _ _ _).
  destruct (for_each_first_raises (modify_beam self) b bs) as [e He].
  { apply modify_beam_raises. destruct r as [v|]; [right | by left].
    exists v. eauto using init_RangeShifterID_truthy. }
  exists e. unfold add, dcmread. cbn [infile self]. rewrite Hfile.
  cbn [mbind result_bind add_rangeshifter self]. unfold modify_existing.
  rewrite Hbeams. cbn [getattr mbind result_bind].
  change (for_each _ (b :: bs)) with (for_each (modify_beam self) (b :: bs)).
  by rewrite He.
Qed.

(** C2. A modify request with a thickness and no snout position never
    reaches the edit: the constructor's third snout test compares [None] with
    421.0 and raises. The object such a request stands for would not be
    edited either: on the sample document [add] stops at the unbound name of
    line 113 before any identifier is written. *)
Theorem thickness_only_modify_fails (float_repr : spec_float → string) :
  init float_repr (PyStr "plan.dcm") (PyStr "P") PyNone (PyInt 2) PyNone false
  = Raise (TypeError "'>' not supported between instances of 'NoneType' and 'float'")
  ∧ add thickness_only_modifier sample_world
    = Raise (NameError "name 'RangeShifterID' is not defined").
Proof. split; vm_compute; reflexivity. Qed.

(** C3. A modify request with a snout position raises on the sample
    document, whose beams each have a device block and a settings block:
    with a thickness, at the unbound name of line 113; without one, at the
    identifier attribute that the constructor never assigned. *)
Theorem modify_with_snout_raises (float_repr : spec_float → string) :
  init float_repr (PyStr "plan.dcm") (PyStr "P") (PyInt 100) (PyInt 3) PyNone false
  = Ok sample_modifier
  ∧ add sample_modifier sample_world
    = Raise (NameError "name 'RangeShifterID' is not defined")
  ∧ init float_repr (PyStr "plan.dcm") (PyStr "P") (PyInt 100) PyNone PyNone false
    = Ok sample_snout_modifier
  ∧ add sample_snout_modifier sample_world
    = Raise (AttributeError "'RangeShifter' object has no attribute 'RangeShifterID'").
Proof. repeat split; vm_compute; reflexivity. Qed.

(** C8. In modify mode an absent snout position passes the first two
    conditions and is rejected while the third, the one that rejects an
    explicit out-of-range value, is evaluated: by the comparison
    [None > 421.0] itself. The error is the interpreter's [TypeError], not one
    of the constructor's own, and its message does not name the snout
    position. An explicit out-of-range value makes the same condition true
    and reaches the [raise] of that branch. *)
Theorem absent_snout_when_modifying (float_repr : spec_float → string) :
  let unordered :=
    TypeError "'>' not supported between instances of 'NoneType' and 'float'" in
  let named :=
    ValueError "snout_position must be None or between 20.0 and 421.0" in
  snout_not_a_number PyNone false = Ok false
  ∧ snout_out_of_range_adding PyNone false = Ok false
  ∧ snout_out_of_range_modifying PyNone false = Raise unordered
  ∧ snout_out_of_range_modifying (PyInt 500) false = Ok true
  ∧ init float_repr (PyStr "plan.dcm") (PyStr "P") PyNone (PyInt 2) PyNone false
    = Raise unordered
  ∧ init float_repr (PyStr "plan.dcm") (PyStr "P") (PyInt 500) (PyInt 2) PyNone false
    = Raise named
  ∧ contains "snout_position" (message unordered) = false
  ∧ contains "snout_position" (message named) = true
  ∧ ¬ InvalidArgument unordered
  ∧ InvalidArgument named.
Proof.
  intros unordered named.
  repeat (split; [vm_compute; reflexivity|]).
  split; [|invalid_argument].
  unfold InvalidArgument, init_errors. intros H.
  repeat (apply elem_of_cons in H as [H|H]; [discriminate H|]).
  by apply elem_of_nil in H.
Qed.

(** ** The instance identifier *)

(** C4, as the code has it. For an identifier of at least three characters,
    the rewritten one has the same length, the character '4' at index 2 and
    every other character unchanged; "1.2.840.99999" becomes
    "1.4.840.99999". *)
Theorem uid_third_character_replaced :
  rewrite_uid "1.2.840.99999" = "1.4.840.99999"
  ∧ ∀ uid : string,
      (3 ≤ String.length uid)%nat →
      String.length (rewrite_uid uid) = String.length uid
      ∧ String.get 2 (rewrite_uid uid) = Some "4"%char
      ∧ (∀ i : nat, i ≠ 2%nat → String.get i (rewrite_uid uid) = String.get i uid).
Proof. split; [reflexivity | apply rewrite_uid_get]. Qed.

(** C5, as the code has it. The rewritten identifier differs from the
    original exactly when the original does not already have '4' at
    index 2 (an identifier shorter than three characters has nothing there
    and grows by one character). *)
Theorem uid_changes_unless_already_4 (uid : string) :
  rewrite_uid uid ≠ uid ↔ String.get 2 uid ≠ Some "4"%char.
Proof. apply rewrite_uid_fixed_iff. Qed.

(** ** Counterexamples to the claims as written *)

(** C4: the rewritten "1.2.840.99999" is not "1.24840.99999". *)
Lemma uid_example_counterexample :
  rewrite_uid "1.2.840.99999" ≠ "1.24840.99999".
Proof. vm_compute. discriminate. Qed.

(** C5: an identifier with '4' at index 2 is left as it is. *)
Lemma uid_passthrough_counterexample :
  ¬ (rewrite_uid "1.4.840.99999" ≠ "1.4.840.99999").
Proof. intros H. by apply H. Qed.

(** C9: the empty plan label is accepted. *)
Lemma empty_plan_label_counterexample :
  ¬ raised (init no_float_printed (PyStr "plan.dcm") (PyStr "") (PyInt 250)
                 (PyInt 3) PyNone true).
Proof. intros [e H]. vm_compute in H. discriminate H. Qed.

(** ** Values at the edge of the validation *)

(** A NaN is a float that compares neither below 20.0 nor above 421.0: it is
    not in the range, not out of it in the sense of [out_of_range], and both
    validation branches let it through. *)
Remark nan_snout_position :
  ¬ in_range (PyFloat S754_nan)
  ∧ ¬ out_of_range (PyFloat S754_nan)
  ∧ passes_range_tests (PyFloat S754_nan).
Proof.
  split; [|split].
  - intros [H _]. discriminate H.
  - intros [H|[H|H]]; discriminate H.
  - split; reflexivity.
Qed.

(** A float equal to 2, 3 or 5 passes the membership test like the int, and
    the identifier then carries the float's own printing. *)
Remark float_thickness (float_repr : spec_float → string) (add : bool) :
  init_RangeShifterID float_repr (PyFloat (F64.of_Z 2)) add
  = Ok (Some (PyStr ("RS=" +:+ float_repr (F64.of_Z 2) +:+ "cm"))).
Proof. reflexivity. Qed.

(** A [bool] is an [int]: [True] and [False] are below 20.0. *)
Remark bool_snout_position (b : bool) : out_of_range (PyBool b).
Proof. right; left. by destruct b. Qed.

(** ** The theorems at concrete inputs *)

Lemma sample_path_ok : dcm_path (PyStr "plan.dcm").
Proof. exists "plan.dcm". split; reflexivity. Qed.

Lemma sample_snout_in_range : in_range (PyInt 250).
Proof. split; reflexivity. Qed.

Lemma sample_beams_ok : Forall has_first_control_point [sample_beam; sample_beam].
Proof. repeat constructor; by eexists _, _. Qed.

Lemma add_mode_one_block_per_beam_witness :
  ∃ self' w' d' beams' dist,
    add sample_adder sample_world = Ok (self', w')
    ∧ ds self' = Some d'
    ∧ Plan.IonBeamSequence d' = Some beams'
    ∧ length beams' = 2%nat
    ∧ IsocentertoRangeShifterDistance sample_adder = Some dist
    ∧ py_add (PyFloat F64.lit_40) (PyInt 250) = Ok dist
    ∧ Forall (one_block_each (PyInt 250) dist) beams'.
Proof.
  apply (add_mode_one_block_per_beam no_float_printed
           (PyStr "plan.dcm") (PyStr "P") (PyInt 250) (PyInt 3) PyNone
           sample_adder sample_world sample_plan [sample_beam; sample_beam]
           "1.2.840.99999").
  - vm_compute. reflexivity.
  - vm_compute. reflexivity.
  - reflexivity.
  - reflexivity.
  - apply sample_beams_ok.
Defined.

Lemma uid_third_character_replaced_witness :
  String.length (rewrite_uid "2.16.840") = 8%nat
  ∧ String.get 2 (rewrite_uid "2.16.840") = Some "4"%char
  ∧ (∀ i : nat, i ≠ 2%nat → String.get i (rewrite_uid "2.16.840") = String.get i "2.16.840").
Proof.
  apply (proj2 uid_third_character_replaced "2.16.840"). simpl. lia.
Defined.

Lemma uid_changes_unless_already_4_witness :
  rewrite_uid "1.2.840.99999" ≠ "1.2.840.99999".
Proof.
  apply (proj2 (uid_changes_unless_already_4 "1.2.840.99999")). simpl. discriminate.
Defined.


Lemma plan_label_must_be_text_witness :
  (∃ e, init no_float_printed (PyStr "plan.dcm") (PyInt 7) (PyInt 250)
             (PyInt 3) PyNone true = Raise e ∧ InvalidArgument e)
  ∧ (∃ self, init no_float_printed (PyStr "plan.dcm") (PyStr "") (PyInt 250)
                  (PyInt 3) PyNone true = Ok self
             ∧ RTPlanLabel self = "").
Proof.
  split.
  - apply (proj1 (plan_label_must_be_text no_float_printed
                    (PyStr "plan.dcm") (PyInt 7) (PyInt 250) (PyInt 3) PyNone true)).
    reflexivity.
  - apply (proj2 (plan_label_must_be_text no_float_printed
                    (PyStr "plan.dcm") (PyStr "") (PyInt 250) (PyInt 3) PyNone true));
      [apply sample_path_ok | apply sample_snout_in_range | reflexivity
       | left; reflexivity].
Defined.

Lemma save_needs_completed_add_witness :
  let no_ds := AttributeError "'RangeShifter' object has no attribute 'ds'" in
  call save (sample_adder, sample_world) = (Some no_ds, (sample_adder, sample_world))
  ∧ (∀ e st, call add (sample_adder, sample_world) = (Some e, st) →
       call save st = (Some no_ds, st) ∧ files st.2 = files sample_world)
  ∧ (∀ self' w', add sample_adder sample_world = Ok (self', w') →
       ∃ d, ds self' = Some d
            ∧ files w' = files sample_world
            ∧ call save (self', w')
              = (None, (self', save_as d (outfile self') w'))).
Proof.
  apply (save_needs_completed_add no_float_printed
           (PyStr "plan.dcm") (PyStr "P") (PyInt 250) (PyInt 3) PyNone true
           sample_adder sample_world).
  vm_compute. reflexivity.
Defined.

(** * Further properties *)

(** ** More on text: slices against concatenation *)

Lemma append_cons (c : ascii) (s t : string) : String c s +:+ t = String c (s +:+ t).
Proof. reflexivity. Qed.

Lemma append_nil_r (s : string) : s +:+ "" = s.
Proof. induction s as [|c s IH]; [done|]. by rewrite append_cons, IH. Qed.

Lemma append_assoc (s t u : string) : (s +:+ t) +:+ u = s +:+ (t +:+ u).
Proof. induction s as [|c s IH]; [done|]. by rewrite !append_cons, IH. Qed.

Lemma length_append (s t : string) :
  String.length (s +:+ t) = (String.length s + String.length t)%nat.
Proof. induction s as [|c s IH]; [done|]. rewrite append_cons. simpl. by rewrite IH. Qed.

Lemma substring_app_l (s t : string) : substring 0 (String.length s) (s +:+ t) = s.
Proof. induction s as [|c s IH]; [by destruct t|]. rewrite append_cons. simpl. by rewrite IH. Qed.

Lemma substring_app_r (s t : string) (m : nat) :
  substring (String.length s) m (s +:+ t) = substring 0 m t.
Proof. induction s as [|c s IH]; [done|]. rewrite append_cons. simpl. by rewrite IH. Qed.

Lemma substring_split (n : nat) (s : string) :
  (n ≤ String.length s)%nat →
  substring 0 n s +:+ substring n (String.length s - n) s = s.
Proof.
  revert s. induction n as [|n IH]; intros s Hn.
  - rewrite Nat.sub_0_r, substring_all. by destruct s.
  - destruct s as [|c s]; simpl in Hn; [lia|]. simpl.
    rewrite append_cons, IH by lia. done.
Qed.

Lemma length_substring (n m : nat) (s : string) :
  String.length (substring n m s) = Nat.min m (String.length s - n).
Proof.
  revert n m. induction s as [|c s IH]; intros [|n] [|m]; simpl; try done;
    rewrite IH; lia.
Qed.

(** [s[:k] + s[k:] == s] for every bound [k]. *)
Lemma py_slice_split (k : Z) (s : string) :
  py_slice None (Some k) s +:+ py_slice (Some k) None s = s.
Proof.
  unfold py_slice. cbn [from_option]. set (len := Z.of_nat (String.length s)).
  set (a := slice_index len k).
  assert (Ha : 0 ≤ a ≤ len) by (subst a; unfold slice_index; lia).
  rewrite Z.sub_0_r. change (Z.to_nat 0) with 0%nat.
  replace (Z.to_nat (len - a)) with (String.length s - Z.to_nat a)%nat by lia.
  apply substring_split. lia.
Qed.

(** [(s + t)[-len(t):] == t] and [(s + t)[:-len(t)] == s] for non-empty [t]. *)
Lemma py_slice_suffix_app (s t : string) :
  t ≠ "" →
  py_slice (Some (- Z.of_nat (String.length t))) None (s +:+ t) = t.
Proof.
  intros Ht. assert (0 < String.length t)%nat by (destruct t; simpl; [done|lia]).
  unfold py_slice, slice_index. cbn [from_option]. rewrite length_append.
  destruct (Z.ltb_spec (- Z.of_nat (String.length t)) 0); [|lia].
  replace (Z.to_nat (Z.max 0 _)) with (String.length s) by lia.
  replace (Z.to_nat _) with (String.length t) by lia.
  by rewrite substring_app_r, substring_all.
Qed.

Lemma py_slice_stem_app (s t : string) :
  t ≠ "" →
  py_slice None (Some (- Z.of_nat (String.length t))) (s +:+ t) = s.
Proof.
  intros Ht. assert (0 < String.length t)%nat by (destruct t; simpl; [done|lia]).
  unfold py_slice, slice_index. cbn [from_option]. rewrite length_append.
  destruct (Z.ltb_spec (- Z.of_nat (String.length t)) 0); [|lia].
  change (Z.to_nat 0) with 0%nat.
  replace (Z.to_nat _) with (String.length s) by lia.
  apply substring_app_l.
Qed.

Lemma length_py_slice_stem (k : nat) (s : string) :
  (0 < k)%nat →
  String.length (py_slice None (Some (- Z.of_nat k)) s) = (String.length s - k)%nat.
Proof.
  intros Hk. unfold py_slice, slice_index. cbn [from_option].
  destruct (Z.ltb_spec (- Z.of_nat k) 0); [|lia].
  rewrite length_substring. lia.
Qed.

Section ConstructorTable.
Variable float_repr : spec_float → string.

Lemma py_in_with_None (rs : pyval) :
  py_in rs [PyInt 2; PyInt 3; PyInt 5; PyNone]
  = py_in rs [PyInt 2; PyInt 3; PyInt 5] || py_eq rs PyNone.
Proof.
  unfold py_in. cbn [existsb].
  destruct (py_eq rs (PyInt 2)), (py_eq rs (PyInt 3)), (py_eq rs (PyInt 5)),
    (py_eq rs PyNone); reflexivity.
Qed.

Lemma py_eq_None (v : pyval) : py_eq v PyNone = true ↔ v = PyNone.
Proof. destruct v; simpl; split; congruence. Qed.

Lemma init_RangeShifterID_Ok_iff (rs : pyval) (add : bool) :
  (∃ r, init_RangeShifterID float_repr rs add = Ok r) ↔ thickness_ok rs add.
Proof.
  unfold thickness_ok, is_supported_thickness, init_RangeShifterID.
  rewrite py_in_with_None.
  destruct (py_in rs [PyInt 2; PyInt 3; PyInt 5]) eqn:Hin; [split; eauto|].
  destruct add; cbn [andb negb orb].
  - split; [intros [r H]; discriminate H | intros [H|[H _]]; discriminate H].
  - destruct (py_eq rs PyNone) eqn:Hnone; cbn [negb].
    + apply py_eq_None in Hnone as ->. split; eauto.
    + split; [intros [r H]; discriminate H|].
      intros [H|[_ ->]]; discriminate.
Qed.

Lemma init_RangeShifterID_Ok (rs : pyval) (add : bool) (r : option pyval) :
  init_RangeShifterID float_repr rs add = Ok r →
  r = if is_supported_thickness rs
      then Some (PyStr ("RS=" +:+ py_str float_repr rs +:+ "cm"))
      else None.
Proof.
  unfold init_RangeShifterID, is_supported_thickness.
  repeat case_match; by intros [= <-].
Qed.

(** Once path, thickness and label are valid, construction is the snout
    check followed by the output path and the distance. *)
Lemma init_after_label (s l : string) (p rs out : pyval) (add : bool) (r : option pyval) :
  ends_with_dcm s →
  init_RangeShifterID float_repr rs add = Ok r →
  init float_repr (PyStr s) (PyStr l) p rs out add
  = (_ ← check_snout_position p add;
     outfile' ← init_outfile float_repr s rs p out;
     dist ← init_IsocentertoRangeShifterDistance p;
     Ok (mkRangeShifter r outfile' dist s l p add (PyInt 1) (PyInt 1)
           (PyStr "BINARY") (PyStr "IN") (PyInt 1) (PyFloat F64.lit_23) None)).
Proof.
  intros Hs Hr. unfold init, check_infile. rewrite Hs, Hr. reflexivity.
Qed.
End ConstructorTable.

Section ConstructorRules.
Variable float_repr : spec_float → string.

Lemma check_infile_Ok_iff (path : pyval) :
  (∃ s, check_infile path = Ok s) ↔ dcm_path path.
Proof.
  unfold dcm_path. destruct path as [| | | |s]; simpl;
    try (split; [intros [? H]; discriminate H | intros (? & H & _); discriminate H]).
  case_bool_decide as Hs; simpl.
  - split; eauto.
  - split; [intros [? H]; discriminate H | intros (? & [= <-] & H); done].
Qed.

Lemma init_outfile_Ok_iff (s : string) (rs p out : pyval) :
  (∃ o, init_outfile float_repr s rs p out = Ok o) ↔ outfile_ok out.
Proof.
  unfold outfile_ok. destruct out; simpl; try case_match;
    split; eauto; try (intros [? H]; discriminate H); intros [H|H]; discriminate H.
Qed.

(** X1. Construction succeeds exactly when the path is text ending in
    [.dcm], the thickness is 2, 3 or 5 (or, when modifying, [None]), the
    label is text, the snout position is a number neither above 421.0 nor
    below 20.0, and the output path is absent or text. *)
Theorem construction_succeeds_iff (path label p rs out : pyval) (add : bool) :
  (∃ self, init float_repr path label p rs out add = Ok self)
  ↔ dcm_path path ∧ thickness_ok rs add ∧ isinstance_str label = true
    ∧ passes_range_tests p ∧ outfile_ok out.
Proof.
  split.
  - intros [self H].
    apply init_inv in H as (i & r & l & o & dist & H1 & H2 & H3 & H4 & H5 & _ & _).
    split; [|split; [|split; [|split]]].
    + apply check_infile_Ok_iff; eauto.
    + apply (proj1 (init_RangeShifterID_Ok_iff float_repr rs add)); eauto.
    + by destruct label.
    + by apply check_snout_position_inv in H4.
    + apply (proj1 (init_outfile_Ok_iff i rs p out)); eauto.
  - intros (H1 & H2 & H3 & H4 & H5). by apply init_succeeds.
Qed.
End ConstructorRules.

Lemma passes_range_tests_int (z : Z) : passes_range_tests (PyInt z) ↔ 20 ≤ z ≤ 421.
Proof.
  unfold passes_range_tests, py_gt, py_lt, py_compare, as_num, num_compare.
  rewrite compare_Z_lit_20, compare_Z_lit_421. simpl.
  destruct (Z.compare_spec z 20), (Z.compare_spec z 421); split;
    try (intros [? ?]; discriminate); try done; try lia.
Qed.

(** X3. The snout test lets the same values through in both modes: an int
    from 20 to 421, or a float that compares neither above 421.0 nor below
    20.0; [None], text and [bool] never pass. *)
Theorem snout_rule_is_mode_independent (p : pyval) :
  (∀ add, check_snout_position p add = Ok () ↔ passes_range_tests p)
  ∧ (passes_range_tests p →
     (∃ z, p = PyInt z ∧ 20 ≤ z ≤ 421)
     ∨ (∃ f, p = PyFloat f
             ∧ SFcompare f F64.lit_421 ≠ Some Gt ∧ SFcompare f F64.lit_20 ≠ Some Lt)).
Proof.
  split.
  - intros add. split; [apply check_snout_position_inv | apply check_snout_position_accepts].
  - intros Hp. destruct p as [|b|z|f|s].
    + destruct Hp as [H _]. discriminate H.
    + destruct Hp as [_ H]. destruct b; discriminate H.
    + left. exists z. split; [done|]. by apply passes_range_tests_int.
    + right. exists f. split; [done|]. destruct Hp as [Hhi Hlo].
      unfold py_gt, py_lt, py_compare, as_num, num_compare in *. simpl in *.
      split; intros Hc; rewrite Hc in *; discriminate.
    + destruct Hp as [H _]. discriminate H.
Qed.

Section ConstructorErrors.
Variable float_repr : spec_float → string.

Lemma init_RangeShifterID_rejects (rs : pyval) (add : bool) :
  ¬ thickness_ok rs add →
  init_RangeShifterID float_repr rs add
  = Raise (ValueError (if add
                       then "range_shifter must be int, either: 2, 3 or 5"
                       else "range_shifter must be None or int (either: 2, 3 or 5)")).
Proof.
  intros H. unfold thickness_ok, is_supported_thickness in H.
  unfold init_RangeShifterID. rewrite py_in_with_None.
  destruct (py_in rs [PyInt 2; PyInt 3; PyInt 5]); [tauto|].
  destruct add; [reflexivity|]. cbn [andb negb orb].
  destruct (py_eq rs PyNone) eqn:Hnone; [|reflexivity].
  apply py_eq_None in Hnone. tauto.
Qed.

(** X2. Arguments are checked in the order path, thickness, label: the
    first invalid one decides the error, whatever the later arguments are.
    The thickness error has one text per mode. *)
Theorem first_invalid_argument_wins (path label p rs out : pyval) (add : bool) :
  (isinstance_str path = false →
   init float_repr path label p rs out add = Raise (TypeError "infile must be a string"))
  ∧ (∀ s, path = PyStr s → ¬ ends_with_dcm s →
       init float_repr path label p rs out add
       = Raise (ValueError "infile must include .dcm file extension"))
  ∧ (dcm_path path → ¬ thickness_ok rs add →
       init float_repr path label p rs out add
       = Raise (ValueError
                  (if add
                   then "range_shifter must be int, either: 2, 3 or 5"
                   else "range_shifter must be None or int (either: 2, 3 or 5)")))
  ∧ (dcm_path path → thickness_ok rs add → isinstance_str label = false →
       init float_repr path label p rs out add
       = Raise (TypeError "plan_id must be a string")).
Proof.
  split; [|split; [|split]].
  - intros H. by destruct path.
  - intros s -> Hs. unfold init, check_infile, ends_with_dcm in *.
    by rewrite bool_decide_eq_false_2.
  - intros (s & -> & Hs) Hrs. unfold init, check_infile. rewrite Hs. simpl.
    by rewrite init_RangeShifterID_rejects.
  - intros (s & -> & Hs) Hrs Hl. unfold init, check_infile. rewrite Hs. simpl.
    destruct (proj2 (init_RangeShifterID_Ok_iff float_repr rs add) Hrs) as [r ->].
    simpl. by destruct label.
Qed.

(** X4. When adding, with the earlier arguments valid, a snout position
    that is not a number gives the constructor's TypeError, and a number
    below 20.0 or above 421.0 gives its ValueError. *)
Theorem snout_errors_when_adding (path label p rs out : pyval) :
  dcm_path path → thickness_ok rs true → isinstance_str label = true →
  (isinstance_float_int p = false →
   init float_repr path label p rs out true
   = Raise (TypeError "snout_position must be float or int"))
  ∧ (isinstance_float_int p = true →
     py_lt p (PyFloat F64.lit_20) = Ok true ∨ py_gt p (PyFloat F64.lit_421) = Ok true →
     init float_repr path label p rs out true
     = Raise (ValueError "snout_position must be between 20.0 and 421.0")).
Proof.
  intros (s & -> & Hs) Hrs Hl. destruct label as [| | | |l]; try discriminate.
  destruct (proj2 (init_RangeShifterID_Ok_iff float_repr rs true) Hrs) as [r Hr].
  rewrite (init_after_label float_repr s l p rs out true r Hs Hr).
  unfold check_snout_position, snout_not_a_number, snout_out_of_range_adding.
  split.
  - intros ->. reflexivity.
  - intros -> [H|H]; cbn [py_and mbind result_bind negb].
    + unfold py_or. rewrite H. destruct (py_gt p _) as [[]|] eqn:Hgt; try reflexivity.
      destruct p; discriminate.
    + unfold py_or. rewrite H. reflexivity.
Qed.

(** X5. When modifying, with the earlier arguments valid, a snout position
    that is not a number (so [None] or text) ends in the interpreter's
    TypeError of the comparison with 421.0, which is not one of the
    constructor's errors; a number out of range gives the ValueError of the
    third branch. *)
Theorem snout_errors_when_modifying (path label p rs out : pyval) :
  dcm_path path → thickness_ok rs false → isinstance_str label = true →
  (isinstance_float_int p = false →
   init float_repr path label p rs out false
   = Raise (unorderable ">" p (PyFloat F64.lit_421))
   ∧ ¬ InvalidArgument (unorderable ">" p (PyFloat F64.lit_421)))
  ∧ (isinstance_float_int p = true →
     py_lt p (PyFloat F64.lit_20) = Ok true ∨ py_gt p (PyFloat F64.lit_421) = Ok true →
     init float_repr path label p rs out false
     = Raise (ValueError "snout_position must be None or between 20.0 and 421.0")).
Proof.
  intros (s & -> & Hs) Hrs Hl. destruct label as [| | | |l]; try discriminate.
  destruct (proj2 (init_RangeShifterID_Ok_iff float_repr rs false) Hrs) as [r Hr].
  rewrite (init_after_label float_repr s l p rs out false r Hs Hr).
  unfold check_snout_position, snout_not_a_number, snout_out_of_range_adding,
    snout_out_of_range_modifying.
  split.
  - intros Hp. split.
    + destruct p; try discriminate; reflexivity.
    + unfold InvalidArgument, init_errors, unorderable. intros H.
      repeat (apply elem_of_cons in H as [H|H]; [discriminate H|]).
      by apply elem_of_nil in H.
  - intros Hp [H|H]; cbn [py_and mbind result_bind negb].
    + unfold py_or. rewrite H. destruct (py_gt p _) as [[]|] eqn:Hgt; try reflexivity.
      destruct p; discriminate.
    + unfold py_or. rewrite H. reflexivity.
Qed.

(** X6. With everything else valid, an output path that is a number (a
    bool, an int or a float) makes construction fail on the slice
    [outfile[-4:]]: the interpreter's TypeError "'<type>' object is not
    subscriptable", which is not one of the constructor's own errors. *)
Theorem numeric_outfile_is_rejected (path label p rs out : pyval) (add : bool) :
  dcm_path path → thickness_ok rs add → isinstance_str label = true →
  passes_range_tests p → isinstance_float_int out = true →
  init float_repr path label p rs out add = Raise (not_subscriptable out)
  ∧ ¬ InvalidArgument (not_subscriptable out).
Proof.
  intros (s & -> & Hs) Hrs Hl Hp Hout. destruct label as [| | | |l]; try discriminate.
  destruct (proj2 (init_RangeShifterID_Ok_iff float_repr rs add) Hrs) as [r Hr].
  rewrite (init_after_label float_repr s l p rs out add r Hs Hr).
  rewrite (check_snout_position_accepts p add Hp). split.
  - destruct out; try discriminate; reflexivity.
  - unfold InvalidArgument, init_errors, not_subscriptable. intros H.
    repeat (apply elem_of_cons in H as [H|H]; [discriminate H|]).
    by apply elem_of_nil in H.
Qed.
End ConstructorErrors.

Lemma ends_with_dcm_app (s t : string) : ends_with_dcm t → ends_with_dcm (s +:+ t).
Proof.
  unfold ends_with_dcm. intros Ht.
  rewrite <- (py_slice_split (-4) t), Ht, <- append_assoc.
  apply (py_slice_suffix_app _ ".dcm"). done.
Qed.

Lemma small_int_distance (z : Z) :
  20 ≤ z ≤ 421 → F64.add F64.lit_40 (F64.of_Z z) = F64.of_Z (40 + z).
Proof.
  intros Hz.
  assert (H : forallb (λ k, bool_decide (F64.add F64.lit_40 (F64.of_Z (20 + Z.of_nat k))
                                         = F64.of_Z (40 + (20 + Z.of_nat k))))
                      (seq 0 402) = true) by (vm_compute; reflexivity).
  rewrite forallb_forall in H.
  specialize (H (Z.to_nat (z - 20)) ltac:(apply in_seq; lia)).
  apply bool_decide_eq_true_1 in H.
  rewrite Z2Nat.id in H by lia. by replace (20 + (z - 20)) with z in H by lia.
Qed.

Section ConstructedEditor.
Variable float_repr : spec_float → string.

(** X7. A constructed editor keeps path, label, snout position and mode as
    given, has the fixed device attributes (numbers 1 and 1, BINARY, IN,
    count 1, 23.0), no stored document, and an identifier attribute that is
    "RS=" + str(thickness) + "cm" when the thickness is 2, 3 or 5; the
    attribute is missing exactly for a modify request without thickness. *)
Theorem constructed_editor_attributes (path label p rs out : pyval) (add : bool)
    (self : RangeShifter) :
  init float_repr path label p rs out add = Ok self →
  path = PyStr (infile self) ∧ label = PyStr (RTPlanLabel self)
  ∧ SnoutPosition self = p ∧ add_rangeshifter self = add
  ∧ RangeShifterNumber self = PyInt 1
  ∧ ReferencedRangeShifterNumber self = RangeShifterNumber self
  ∧ RangeShifterType self = PyStr "BINARY"
  ∧ RangeShifterSetting self = PyStr "IN"
  ∧ NumberOfRangeShifters self = PyInt 1
  ∧ RangeShifterWaterEquivalentThickness self = PyFloat F64.lit_23
  ∧ ds self = None
  ∧ RangeShifterID self
    = (if is_supported_thickness rs
       then Some (PyStr ("RS=" +:+ py_str float_repr rs +:+ "cm"))
       else None)
  ∧ (RangeShifterID self = None ↔ add = false ∧ rs = PyNone).
Proof.
  intros H.
  apply init_inv in H as (i & r & l & o & dist & H1 & H2 & H3 & _ & _ & _ & ->).
  cbn [infile RTPlanLabel SnoutPosition add_rangeshifter RangeShifterNumber
       ReferencedRangeShifterNumber RangeShifterType RangeShifterSetting
       NumberOfRangeShifters RangeShifterWaterEquivalentThickness ds RangeShifterID].
  assert (Hth : thickness_ok rs add)
    by (apply (proj1 (init_RangeShifterID_Ok_iff float_repr rs add)); eauto).
  apply init_RangeShifterID_Ok in H2 as ->.
  assert (Hpath : path = PyStr i).
  { destruct path; try discriminate. simpl in H1. case_match; congruence. }
  assert (Hlabel : label = PyStr l).
  { destruct label; try discriminate. simpl in H3. congruence. }
  assert (Hnone : (if is_supported_thickness rs
                   then Some (PyStr ("RS=" +:+ py_str float_repr rs +:+ "cm"))
                   else None) = None ↔ add = false ∧ rs = PyNone).
  { destruct Hth as [Hth|[-> ->]]; [|done]. rewrite Hth.
    split; [done|]. intros [_ ->]. discriminate Hth. }
  by repeat split; try apply Hnone.
Qed.

(** X8. For an int snout position z, a constructed editor has
    20 <= z <= 421 and stores the float 40 + z as distance: converting z and
    adding 40.0 round nothing. *)
Theorem int_snout_distance_is_exact (path label rs out : pyval) (add : bool)
    (z : Z) (self : RangeShifter) :
  init float_repr path label (PyInt z) rs out add = Ok self →
  20 ≤ z ≤ 421
  ∧ IsocentertoRangeShifterDistance self = Some (PyFloat (F64.of_Z (40 + z))).
Proof.
  intros H.
  apply init_inv in H as (i & r & l & o & dist & _ & _ & _ & H4 & _ & H6 & ->).
  apply check_snout_position_inv, passes_range_tests_int in H4. split; [done|].
  cbn [IsocentertoRangeShifterDistance].
  revert H6. unfold init_IsocentertoRangeShifterDistance, truthy.
  destruct (Z.eqb_spec z 0); [lia|]. cbn [negb].
  change (py_sub (PyFloat F64.lit_461) (PyFloat F64.lit_421))
    with (Ok (PyFloat F64.lit_40)).
  cbn [mbind result_bind]. unfold py_add, as_num, num_arith.
  rewrite small_int_converts by done. cbn [mbind result_bind].
  rewrite small_int_distance by done. by intros [= <-].
Qed.

(** X9. The stored output path always ends in [.dcm]: an explicit path
    that has the extension is kept as it is, one that has not gets it
    appended. *)
Theorem outfile_always_has_extension (path label p rs out : pyval) (add : bool)
    (self : RangeShifter) :
  init float_repr path label p rs out add = Ok self →
  ends_with_dcm (outfile self)
  ∧ (∀ o, out = PyStr o →
       (ends_with_dcm o → outfile self = o)
       ∧ (¬ ends_with_dcm o → outfile self = o +:+ ".dcm")).
Proof.
  intros H.
  apply init_inv in H as (i & r & l & o' & dist & _ & _ & _ & _ & H5 & _ & ->).
  cbn [outfile]. unfold init_outfile in H5. destruct out as [| | | |o]; try discriminate.
  - injection H5 as <-. split; [|intros ? [=]].
    rewrite <- !append_assoc. apply (py_slice_suffix_app _ ".dcm"). done.
  - fold (ends_with_dcm o) in H5. case_bool_decide as Ho; simpl in H5; injection H5 as <-.
    + split; [done|]. intros ? [= <-]. split; [done|tauto].
    + split; [apply (py_slice_suffix_app _ ".dcm"); done|].
      intros ? [= <-]. split; [tauto|done].
Qed.

(** X10. Without an explicit output path, the output path is the input
    path's stem followed by "_RS", str(thickness), "_Snout",
    str(snout position) and ".dcm"; it never equals the input path. *)
Theorem default_outfile_name (path label p rs : pyval) (add : bool)
    (self : RangeShifter) :
  init float_repr path label p rs PyNone add = Ok self →
  ∃ stem,
    infile self = stem +:+ ".dcm"
    ∧ outfile self
      = stem +:+ "_RS" +:+ py_str float_repr rs +:+ "_Snout"
        +:+ py_str float_repr p +:+ ".dcm"
    ∧ outfile self ≠ infile self.
Proof.
  intros H.
  apply init_inv in H as (i & r & l & o' & dist & H1 & _ & _ & _ & H5 & _ & ->).
  cbn [outfile infile]. injection H5 as <-.
  assert (Hi : ends_with_dcm i).
  { destruct path; try discriminate. simpl in H1. case_bool_decide; [|done].
    simpl in H1. congruence. }
  exists (py_slice None (Some (-4)) i). split; [|split; [done|]].
  - unfold ends_with_dcm in Hi. rewrite <- Hi. symmetry. apply py_slice_split.
  - intros Heq. apply (f_equal String.length) in Heq.
    rewrite !length_append in Heq.
    pose proof (length_py_slice_stem 4 i ltac:(lia)) as Hstem.
    change (- Z.of_nat 4) with (-4) in Hstem. rewrite Hstem in Heq.
    assert (4 ≤ String.length i)%nat.
    { unfold ends_with_dcm in Hi.
      rewrite <- (py_slice_split (-4) i), length_append, Hi. simpl. lia. }
    simpl in Heq. lia.
Qed.
End ConstructedEditor.

Lemma add_Ok_iff (self self' : RangeShifter) (w w' : World) :
  add self w = Ok (self', w') ↔
  ∃ d d1 uid,
    files w !! infile self = Some (DicomFile d)
    ∧ edit_branch self d = Ok d1
    ∧ Plan.SOPInstanceUID d1 = Some uid
    ∧ self' = set_ds (relabelled self uid d1) self
    ∧ w' = print (confirmation_line self uid) w.
Proof.
  unfold add, dcmread, edit_branch, relabelled, confirmation_line. split.
  - intros H. apply bind_Ok in H as (d & Hd & H).
    apply bind_Ok in H as (d1 & Hd1 & H).
    apply bind_Ok in H as (uid & Huid & [= <- <-]).
    exists d, d1, uid.
    destruct (files w !! infile self) as [[d0|]|]; try discriminate.
    injection Hd as ->.
    assert (Plan.SOPInstanceUID d1 = Some uid).
    { cbn [Plan.set_RTPlanLabel Plan.SOPInstanceUID] in Huid.
      destruct (Plan.SOPInstanceUID d1); [by injection Huid as -> | discriminate]. }
    by repeat split.
  - intros (d & d1 & uid & Hd & Hd1 & Huid & -> & ->).
    rewrite Hd. cbn [mbind result_bind]. rewrite Hd1. cbn [mbind result_bind].
    cbn [Plan.set_RTPlanLabel Plan.SOPInstanceUID]. by rewrite Huid.
Qed.

Lemma add_branch_raises (self : RangeShifter) (w : World) (d : Plan.t) (e : exn) :
  files w !! infile self = Some (DicomFile d) →
  edit_branch self d = Raise e →
  add self w = Raise e.
Proof.
  unfold add, dcmread, edit_branch. intros -> H. cbn [mbind result_bind]. by rewrite H.
Qed.

Lemma edit_branch_keeps_uid (self : RangeShifter) (d d1 : Plan.t) :
  edit_branch self d = Ok d1 →
  Plan.SOPInstanceUID d1 = Plan.SOPInstanceUID d
  ∧ Plan.RTPlanLabel d1 = Plan.RTPlanLabel d.
Proof.
  unfold edit_branch, add_new, modify_existing. destruct (add_rangeshifter self); intros H.
  - apply bind_Ok in H as (? & _ & H). apply bind_Ok in H as (? & _ & H).
    apply bind_Ok in H as (? & _ & H). apply bind_Ok in H as (? & _ & [= <-]). done.
  - apply bind_Ok in H as (? & _ & H). apply bind_Ok in H as (? & _ & [= <-]). done.
Qed.

Lemma add_beam_exact (self : RangeShifter) (dev : DeviceBlock.t) (st : SettingsBlock.t)
    (b : IonBeam.t) (cp : ControlPoint.t) (cps : list ControlPoint.t) :
  IonBeam.IonControlPointSequence b = Some (cp :: cps) →
  add_beam self dev st b
  = Ok (IonBeam.mk (Some (NumberOfRangeShifters self)) (Some [dev])
          (Some (ControlPoint.mk (Some (SnoutPosition self)) (Some [st]) :: cps))).
Proof. intros H. unfold add_beam. simpl. rewrite H. reflexivity. Qed.

Lemma add_beam_no_control_point (self : RangeShifter) (dev : DeviceBlock.t)
    (st : SettingsBlock.t) (b : IonBeam.t) :
  ¬ has_first_control_point b →
  add_beam self dev st b
  = Raise (match IonBeam.IonControlPointSequence b with
           | None => AttributeError "'Dataset' object has no attribute 'IonControlPointSequence'"
           | Some _ => IndexError "list index out of range"
           end).
Proof.
  intros H. unfold add_beam. simpl.
  destruct (IonBeam.IonControlPointSequence b) as [[|cp cps]|] eqn:Hb; try reflexivity.
  exfalso. apply H. by exists cp, cps.
Qed.

Lemma for_each_stops {A} (body : A → result A) (good : list A) (x : A) (rest : list A)
    (e : exn) :
  Forall (λ y, ∃ z, body y = Ok z) good →
  body x = Raise e →
  for_each body (good ++ x :: rest)%list = Raise e.
Proof.
  intros Hgood Hx. induction Hgood as [|y good [z Hy] _ IH]; simpl.
  - by rewrite Hx.
  - by rewrite Hy, IH.
Qed.

Lemma init_shape (float_repr : spec_float → string)
    (path label p rs out : pyval) (add : bool) (self : RangeShifter) :
  init float_repr path label p rs out add = Ok self →
  ∃ r o v i l,
    self = mkRangeShifter r o (Some (PyFloat v)) i l p add (PyInt 1) (PyInt 1)
             (PyStr "BINARY") (PyStr "IN") (PyInt 1) (PyFloat F64.lit_23) None
    ∧ (add = true → ∃ rsid, r = Some rsid)
    ∧ (∀ rsid, r = Some rsid → truthy rsid = true)
    ∧ (r = None → rs = PyNone)
    ∧ passes_range_tests p.
Proof.
  intros H.
  apply init_inv in H as (i & r & l & o & dist & _ & Hr & _ & Hp & _ & Hdist & ->).
  apply check_snout_position_inv in Hp.
  destruct (init_IsocentertoRangeShifterDistance_passes p Hp) as (v & Hv & _).
  rewrite Hv in Hdist. injection Hdist as <-.
  exists r, o, v, i, l. split; [done|]. split; [|split; [|split; [|done]]].
  - intros ->. by apply init_RangeShifterID_add_set in Hr.
  - intros rsid ->. by apply init_RangeShifterID_truthy in Hr.
  - intros ->.
    assert (Hth : thickness_ok rs add)
      by (apply (proj1 (init_RangeShifterID_Ok_iff float_repr rs add)); eauto).
    apply init_RangeShifterID_Ok in Hr.
    destruct Hth as [Hth|[_ ->]]; [|done]. rewrite Hth in Hr. discriminate.
Qed.

(** X11. The whole result of an add-mode edit with a label free of
    backslashes, on a document whose beams each have a first control point:
    the stored document has the editor's label, the rewritten identifier and
    as many beams, in the same order; each beam has count 1, the one device
    block (1, identifier, BINARY), and control points unchanged but for the
    first, which has the snout position and the one settings block (IN,
    distance, 23.0, 1). One line is printed. *)
Theorem add_mode_document (float_repr : spec_float → string)
    (path label p rs out : pyval) (self : RangeShifter) (w : World) (d : Plan.t)
    (beams : list IonBeam.t) (uid : string) :
  init float_repr path label p rs out true = Ok self →
  no_backslash (RTPlanLabel self) →
  files w !! infile self = Some (DicomFile d) →
  Plan.IonBeamSequence d = Some beams →
  Plan.SOPInstanceUID d = Some uid →
  Forall has_first_control_point beams →
  ∃ rsid dist beams',
    RangeShifterID self = Some rsid
    ∧ IsocentertoRangeShifterDistance self = Some dist
    ∧ add self w
      = Ok (set_ds (Plan.mk (Some (RTPlanLabel self)) (Some (rewrite_uid uid))
                            (Some beams')) self,
            print (confirmation_line self uid) w)
    ∧ length beams' = length beams
    ∧ ∀ i b cp cps,
        beams !! i = Some b →
        IonBeam.IonControlPointSequence b = Some (cp :: cps) →
        beams' !! i
        = Some (IonBeam.mk (Some (PyInt 1)) (Some [fresh_device_block rsid])
                  (Some (ControlPoint.mk (Some p) (Some [fresh_settings_block dist])
                         :: cps))).
Proof.
  intros Hinit _ Hfile Hbeams Huid Hcps.
  apply init_shape in Hinit as (r & o & v & i & l & -> & Hr & _ & _ & _).
  destruct (Hr eq_refl) as [rsid ->]. cbn [infile] in Hfile.
  set (self := mkRangeShifter _ _ _ _ _ _ _ _ _ _ _ _ _ _).
  set (body := add_beam self (fresh_device_block rsid) (fresh_settings_block (PyFloat v))).
  destruct (for_each_total body has_first_control_point (λ _, True) beams)
    as (beams' & Hloop & _ & Hlen); [|done|].
  { intros b (cp & cps & Hb). eexists. split; [|done].
    by apply (add_beam_exact self _ _ b cp cps). }
  exists rsid, (PyFloat v), beams'. split; [done|]. split; [done|].
  split; [|split; [done|]].
  - apply add_Ok_iff. exists d, (Plan.set_IonBeamSequence beams' d), uid.
    split; [done|]. split; [|split; [done|split; [|done]]].
    + unfold edit_branch, add_new. cbn [add_rangeshifter self RangeShifterID
        IsocentertoRangeShifterDistance getattr mbind result_bind].
      rewrite Hbeams. cbn [getattr mbind result_bind].
      change (for_each _ beams) with (for_each body beams). by rewrite Hloop.
    + unfold relabelled. by destruct d.
  - intros k b cp cps Hk Hb. apply for_each_Forall2 in Hloop.
    destruct (Forall2_lookup_l _ _ _ k b Hloop Hk) as (b' & Hk' & Hb').
    rewrite Hk'. f_equal. subst body.
    rewrite (add_beam_exact self _ _ b cp cps Hb) in Hb'. by injection Hb' as <-.
Qed.

(** X12. A completed edit, in either mode, read the document at the input
    path, changed nothing of the editor but the stored document, whose
    identifier is the rewritten one and whose label, when free of
    backslashes, is the editor's; it wrote no file and printed exactly one
    line. *)
Theorem add_effects (self self' : RangeShifter) (w w' : World) :
  add self w = Ok (self', w') →
  ∃ d d' uid,
    files w !! infile self = Some (DicomFile d)
    ∧ Plan.SOPInstanceUID d = Some uid
    ∧ self' = set_ds d' self
    ∧ (no_backslash (RTPlanLabel self) →
       Plan.RTPlanLabel d' = Some (RTPlanLabel self))
    ∧ Plan.SOPInstanceUID d' = Some (rewrite_uid uid)
    ∧ files w' = files w
    ∧ stdout w' = (stdout w ++ [confirmation_line self uid])%list.
Proof.
  intros H. apply add_Ok_iff in H as (d & d1 & uid & Hd & Hd1 & Huid & -> & ->).
  apply edit_branch_keeps_uid in Hd1 as [Hkeep _]. rewrite Hkeep in Huid.
  exists d, (relabelled self uid d1), uid. by repeat split.
Qed.

(** X13. An edit that completed can be run again: it reads the input file
    anew, stores the same document and prints the same line once more. *)
Theorem add_is_repeatable (self self' : RangeShifter) (w w' : World) :
  add self w = Ok (self', w') →
  ∃ line, w' = print line w ∧ add self' w' = Ok (self', print line w').
Proof.
  intros H. apply add_Ok_iff in H as (d & d1 & uid & Hd & Hd1 & Huid & -> & ->).
  exists (confirmation_line self uid). split; [done|].
  apply add_Ok_iff. exists d, d1, uid. by repeat split.
Qed.

(** X14. An edit fails with a FileNotFoundError when the input path is
    missing, with the codec's InvalidDicomError when the file is not a DICOM
    document, and with the AttributeError of the missing attribute when the
    document has no beam sequence or (with no beams, which lets the loop
    pass) no instance identifier. *)
Theorem add_input_errors (float_repr : spec_float → string)
    (path label p rs out : pyval) (mode : bool) (self : RangeShifter) (w : World) :
  init float_repr path label p rs out mode = Ok self →
  (files w !! infile self = None →
   ∃ m, add self w = Raise (FileNotFoundError m))
  ∧ (files w !! infile self = Some OtherFile →
     ∃ m, add self w = Raise (InvalidDicomError m))
  ∧ (∀ d, files w !! infile self = Some (DicomFile d) →
          Plan.IonBeamSequence d = None →
          add self w
          = Raise (AttributeError "'FileDataset' object has no attribute 'IonBeamSequence'"))
  ∧ (∀ d, files w !! infile self = Some (DicomFile d) →
          Plan.IonBeamSequence d = Some [] →
          Plan.SOPInstanceUID d = None →
          add self w
          = Raise (AttributeError "'FileDataset' object has no attribute 'SOPInstanceUID'")).
Proof.
  intros Hinit.
  apply init_shape in Hinit as (r & o & v & i & l & -> & Hr & _ & _ & _).
  cbn [infile]. split; [|split; [|split]].
  - intros H. eexists. unfold add, dcmread. cbn [infile]. by rewrite H.
  - intros H. eexists. unfold add, dcmread. cbn [infile]. by rewrite H.
  - intros d Hd Hbeams. apply (add_branch_raises _ _ d); [done|].
    unfold edit_branch, add_new, modify_existing. cbn [add_rangeshifter].
    destruct mode.
    + destruct (Hr eq_refl) as [rsid ->]. simpl. by rewrite Hbeams.
    + simpl. by rewrite Hbeams.
  - intros d Hd Hbeams Huid. unfold add, dcmread. cbn [infile]. rewrite Hd.
    cbn [mbind result_bind add_rangeshifter]. unfold add_new, modify_existing.
    destruct mode.
    + destruct (Hr eq_refl) as [rsid ->]. simpl. rewrite Hbeams. simpl. by rewrite Huid.
    + simpl. rewrite Hbeams. simpl. by rewrite Huid.
Qed.

(** X15. In add mode the loop stops at the first beam without a first
    control point: IndexError when its control point sequence is empty,
    AttributeError when it has none; the beams after it are not reached and
    nothing is stored. *)
Theorem add_mode_stops_at_bad_beam (float_repr : spec_float → string)
    (path label p rs out : pyval) (self : RangeShifter) (w : World) (d : Plan.t)
    (good rest : list IonBeam.t) (b : IonBeam.t) :
  init float_repr path label p rs out true = Ok self →
  files w !! infile self = Some (DicomFile d) →
  Plan.IonBeamSequence d = Some (good ++ b :: rest)%list →
  Forall has_first_control_point good →
  ¬ has_first_control_point b →
  add self w
  = Raise (match IonBeam.IonControlPointSequence b with
           | None => AttributeError "'Dataset' object has no attribute 'IonControlPointSequence'"
           | Some _ => IndexError "list index out of range"
           end).
Proof.
  intros Hinit Hfile Hbeams Hgood Hb.
  apply init_shape in Hinit as (r & o & v & i & l & -> & Hr & _ & _ & _).
  destruct (Hr eq_refl) as [rsid ->]. cbn [infile] in Hfile.
  apply (add_branch_raises _ _ d); [done|].
  unfold edit_branch, add_new.
  cbn [add_rangeshifter RangeShifterID IsocentertoRangeShifterDistance getattr
       mbind result_bind].
  rewrite Hbeams. cbn [getattr mbind result_bind].
  erewrite for_each_stops; [done| |by apply add_beam_no_control_point].
  eapply Forall_impl; [exact Hgood|]. intros b' (cp & cps & Hb').
  eexists. by apply (add_beam_exact _ _ _ b' cp cps).
Qed.

(** X16. In modify mode an edit completes exactly when the document has no
    beams; with a label free of backslashes it then stores the document with
    only label and identifier changed, and prints its line. *)
Theorem modify_mode_needs_no_beams (float_repr : spec_float → string)
    (path label p rs out : pyval) (self : RangeShifter) (w : World) (d : Plan.t)
    (beams : list IonBeam.t) (uid : string) :
  init float_repr path label p rs out false = Ok self →
  files w !! infile self = Some (DicomFile d) →
  Plan.IonBeamSequence d = Some beams →
  Plan.SOPInstanceUID d = Some uid →
  ((∃ st, add self w = Ok st) ↔ beams = [])
  ∧ (beams = [] → no_backslash (RTPlanLabel self) →
     add self w
     = Ok (set_ds (Plan.mk (Some (RTPlanLabel self)) (Some (rewrite_uid uid)) (Some []))
                  self,
           print (confirmation_line self uid) w)).
Proof.
  intros Hinit Hfile Hbeams Huid.
  assert (Hempty : beams = [] →
            add self w
            = Ok (set_ds (Plan.mk (Some (RTPlanLabel self)) (Some (rewrite_uid uid))
                                  (Some [])) self,
                  print (confirmation_line self uid) w)).
  { intros ->. apply add_Ok_iff. exists d, d, uid.
    apply init_shape in Hinit as (r & o & v & i & l & -> & _).
    repeat split; try done.
    - unfold edit_branch, modify_existing. cbn [add_rangeshifter]. rewrite Hbeams.
      destruct d as [a b c]. cbn [Plan.IonBeamSequence] in Hbeams. by subst c.
    - destruct d as [a b c]. cbn [Plan.IonBeamSequence] in Hbeams. by subst c. }
  split; [|by intros ? _; apply Hempty]. split.
  - intros [st Hst]. destruct beams as [|b bs]; [done|].
    destruct (modify_mode_raises float_repr path label p rs out self w d b bs)
      as [e He]; try done. congruence.
  - intros ->. eauto.
Qed.

(** X17. In modify mode, on a document with at least one beam, the edit
    ends at the first beam: with the missing identifier attribute when no
    thickness was given; otherwise with the beam's missing device sequence,
    or, when the beam has one (even an empty one), with the unbound name of
    line 113. *)
Theorem modify_mode_errors (float_repr : spec_float → string)
    (path label p rs out : pyval) (self : RangeShifter) (w : World) (d : Plan.t)
    (b : IonBeam.t) (bs : list IonBeam.t) :
  init float_repr path label p rs out false = Ok self →
  files w !! infile self = Some (DicomFile d) →
  Plan.IonBeamSequence d = Some (b :: bs) →
  add self w
  = Raise (if is_supported_thickness rs
           then match IonBeam.RangeShifterSequence b with
                | Some _ => NameError "name 'RangeShifterID' is not defined"
                | None =>
                    AttributeError "'Dataset' object has no attribute 'RangeShifterSequence'"
                end
           else AttributeError "'RangeShifter' object has no attribute 'RangeShifterID'").
Proof.
  intros Hinit Hfile Hbeams.
  apply init_inv in Hinit as (i & r & l & o & dist & _ & Hr & _ & _ & _ & _ & ->).
  cbn [infile] in Hfile. apply (add_branch_raises _ _ d); [done|].
  unfold edit_branch, modify_existing. cbn [add_rangeshifter]. rewrite Hbeams.
  cbn [getattr mbind result_bind for_each]. unfold modify_beam.
  cbn [RangeShifterID].
  pose proof (init_RangeShifterID_Ok float_repr rs false r Hr) as ->.
  destruct (is_supported_thickness rs); [|reflexivity].
  cbn [getattr mbind result_bind truthy negb].
  destruct (IonBeam.RangeShifterSequence b); reflexivity.
Qed.

Lemma default_outfile_differs (float_repr : spec_float → string)
    (path label p rs : pyval) (mode : bool) (self : RangeShifter) :
  init float_repr path label p rs PyNone mode = Ok self →
  outfile self ≠ infile self.
Proof.
  intros H.
  apply init_inv in H as (i & r & l & o' & dist & H1 & _ & _ & _ & H5 & _ & ->).
  cbn [outfile infile]. injection H5 as <-.
  assert (Hi : py_slice (Some (-4)) None i = ".dcm").
  { destruct path; try discriminate. simpl in H1. case_bool_decide; [|done].
    simpl in H1. congruence. }
  intros Heq. apply (f_equal String.length) in Heq.
  rewrite !length_append in Heq.
  pose proof (length_py_slice_stem 4 i ltac:(lia)) as Hstem.
  change (- Z.of_nat 4) with (-4) in Hstem. rewrite Hstem in Heq.
  assert (4 ≤ String.length i)%nat.
  { rewrite <- (py_slice_split (-4) i), length_append, Hi. simpl. lia. }
  simpl in Heq. lia.
Qed.

(** X19. With the default output path, an edit followed by a save that
    completes changes the file at no path but the output path, which is not
    the input path: the input file is left as it was. *)
Theorem default_output_keeps_input (float_repr : spec_float → string)
    (path label p rs : pyval) (mode : bool)
    (self self1 self2 : RangeShifter) (w w1 w2 : World) :
  init float_repr path label p rs PyNone mode = Ok self →
  add self w = Ok (self1, w1) →
  save self1 w1 = Ok (self2, w2) →
  outfile self ≠ infile self
  ∧ files w2 !! infile self = files w !! infile self
  ∧ (∀ other, other ≠ outfile self → files w2 !! other = files w !! other).
Proof.
  intros Hinit Hadd Hsave. apply default_outfile_differs in Hinit.
  apply add_Ok_iff in Hadd as (d & d1 & uid & Hd & _ & _ & -> & ->).
  unfold save in Hsave. cbn [ds set_ds getattr mbind result_bind] in Hsave.
  injection Hsave as <- <-.
  assert (Hother : ∀ other, other ≠ outfile self →
            files (save_as (relabelled self uid d1)
                     (outfile (set_ds (relabelled self uid d1) self))
                     (print (confirmation_line self uid) w)) !! other
            = files w !! other).
  { intros other Hne. unfold save_as, print. cbn [files outfile set_ds].
    by rewrite lookup_insert_ne. }
  split; [done|]. split; [|done]. apply Hother. congruence.
Qed.

(** ** More on the instance identifier *)

Lemma string_ext (s t : string) : (∀ i, String.get i s = String.get i t) → s = t.
Proof.
  revert t. induction s as [|c s IH]; intros [|c' t] H; try done.
  - specialize (H 0%nat). discriminate H.
  - specialize (H 0%nat). discriminate H.
  - pose proof (H 0%nat) as H0. injection H0 as ->. f_equal.
    apply IH. intros i. apply (H (S i)).
Qed.

(** X21. An identifier of fewer than three characters is not cut: the
    rewrite appends '4' to it. *)
Theorem short_uid_grows (uid : string) :
  (String.length uid < 3)%nat →
  rewrite_uid uid = uid +:+ "4"
  ∧ String.length (rewrite_uid uid) = S (String.length uid).
Proof.
  destruct uid as [|a [|b [|c r]]]; simpl; intros H; try lia; by split.
Qed.

(** X22. Rewriting a rewritten identifier changes nothing exactly when the
    original has at least two characters. *)
Theorem rewrite_uid_idempotent_iff (uid : string) :
  rewrite_uid (rewrite_uid uid) = rewrite_uid uid ↔ (2 ≤ String.length uid)%nat.
Proof.
  destruct uid as [|a [|b [|c r]]].
  - split; [intros H; discriminate H | simpl; lia].
  - change (rewrite_uid (String a "")) with (String a "4").
    change (rewrite_uid (String a "4")) with (String a "44").
    split; [intros H; discriminate H | simpl; lia].
  - change (rewrite_uid (String a (String b ""))) with (String a (String b "4")).
    rewrite rewrite_uid_long. split; [simpl; lia | done].
  - rewrite !rewrite_uid_long. split; [simpl; lia | done].
Qed.

(** X23. Two identifiers of at least three characters are rewritten to the
    same identifier exactly when they agree everywhere but at index 2. *)
Theorem rewrite_uid_collisions (u v : string) :
  (3 ≤ String.length u)%nat → (3 ≤ String.length v)%nat →
  rewrite_uid u = rewrite_uid v
  ↔ ∀ i : nat, i ≠ 2%nat → String.get i u = String.get i v.
Proof.
  destruct u as [|a [|b [|c r]]]; simpl; try lia.
  destruct v as [|a' [|b' [|c' r']]]; simpl; try lia. intros _ _.
  rewrite !rewrite_uid_long. split.
  - intros [= -> -> ->] [|[|[|i]]] Hi; simpl; congruence.
  - intros H. pose proof (H 0%nat ltac:(lia)) as H0. pose proof (H 1%nat ltac:(lia)) as H1.
    simpl in H0, H1. injection H0 as ->. injection H1 as ->. do 3 f_equal.
    apply string_ext. intros i. apply (H (S (S (S i)))). lia.
Qed.

(** ** The further theorems at concrete inputs *)

Lemma sample_snout_passes : passes_range_tests (PyInt 250).
Proof. split; reflexivity. Qed.

Lemma sample_after_add_eq :
  add sample_adder sample_world = Ok (sample_after_add.1, sample_after_add.2).
Proof. vm_compute. reflexivity. Qed.

Lemma sample_inplace_built :
  init no_float_printed (PyStr "plan.dcm") (PyStr "P") (PyInt 250) (PyInt 3)
       (PyStr "plan.dcm") true
  = Ok sample_inplace.
Proof. vm_compute. reflexivity. Qed.

Lemma construction_succeeds_iff_witness :
  ∃ self, init no_float_printed (PyStr "plan.dcm") (PyStr "P") (PyInt 250)
               (PyInt 3) PyNone true = Ok self.
Proof.
  apply (proj2 (construction_succeeds_iff no_float_printed (PyStr "plan.dcm")
                  (PyStr "P") (PyInt 250) (PyInt 3) PyNone true)).
  split; [apply sample_path_ok|]. split; [left; reflexivity|].
  split; [reflexivity|]. split; [apply sample_snout_passes | left; reflexivity].
Defined.

Lemma first_invalid_argument_wins_witness :
  init no_float_printed (PyInt 3) (PyInt 0) PyNone PyNone PyNone true
  = Raise (TypeError "infile must be a string")
  ∧ init no_float_printed (PyStr "plan.dcm") (PyInt 0) PyNone (PyInt 4) PyNone false
    = Raise (ValueError "range_shifter must be None or int (either: 2, 3 or 5)").
Proof.
  split.
  - apply (proj1 (first_invalid_argument_wins no_float_printed (PyInt 3) (PyInt 0)
                    PyNone PyNone PyNone true)).
    reflexivity.
  - apply (proj1 (proj2 (proj2 (first_invalid_argument_wins no_float_printed
                                  (PyStr "plan.dcm") (PyInt 0) PyNone (PyInt 4)
                                  PyNone false)))).
    + apply sample_path_ok.
    + intros [H|[_ H]]; discriminate H.
Defined.

Lemma snout_rule_is_mode_independent_witness :
  check_snout_position (PyInt 250) false = Ok ()
  ∧ ((∃ z, PyInt 250 = PyInt z ∧ 20 ≤ z ≤ 421)
     ∨ (∃ f, PyInt 250 = PyFloat f
             ∧ SFcompare f F64.lit_421 ≠ Some Gt ∧ SFcompare f F64.lit_20 ≠ Some Lt)).
Proof.
  split.
  - apply (proj2 (proj1 (snout_rule_is_mode_independent (PyInt 250)) false)).
    apply sample_snout_passes.
  - apply (proj2 (snout_rule_is_mode_independent (PyInt 250))).
    apply sample_snout_passes.
Defined.

Lemma snout_errors_when_adding_witness :
  init no_float_printed (PyStr "plan.dcm") (PyStr "P") PyNone (PyInt 3) PyNone true
  = Raise (TypeError "snout_position must be float or int").
Proof.
  apply (proj1 (snout_errors_when_adding no_float_printed (PyStr "plan.dcm")
                  (PyStr "P") PyNone (PyInt 3) PyNone
                  sample_path_ok (or_introl eq_refl) eq_refl)).
  reflexivity.
Defined.

Lemma snout_errors_when_modifying_witness :
  init no_float_printed (PyStr "plan.dcm") (PyStr "P") (PyStr "250") PyNone PyNone false
  = Raise (unorderable ">" (PyStr "250") (PyFloat F64.lit_421))
  ∧ ¬ InvalidArgument (unorderable ">" (PyStr "250") (PyFloat F64.lit_421)).
Proof.
  apply (proj1 (snout_errors_when_modifying no_float_printed (PyStr "plan.dcm")
                  (PyStr "P") (PyStr "250") PyNone PyNone
                  sample_path_ok (or_intror (conj eq_refl eq_refl)) eq_refl)).
  reflexivity.
Defined.

Lemma numeric_outfile_is_rejected_witness :
  init no_float_printed (PyStr "plan.dcm") (PyStr "P") (PyInt 250) (PyInt 3)
       (PyInt 7) true
  = Raise (not_subscriptable (PyInt 7))
  ∧ ¬ InvalidArgument (not_subscriptable (PyInt 7)).
Proof.
  apply (numeric_outfile_is_rejected no_float_printed (PyStr "plan.dcm") (PyStr "P")
           (PyInt 250) (PyInt 3) (PyInt 7) true).
  - apply sample_path_ok.
  - left. reflexivity.
  - reflexivity.
  - apply sample_snout_passes.
  - reflexivity.
Defined.

Lemma constructed_editor_attributes_witness :
  PyStr "plan.dcm" = PyStr (infile sample_adder)
  ∧ PyStr "P" = PyStr (RTPlanLabel sample_adder)
  ∧ SnoutPosition sample_adder = PyInt 250 ∧ add_rangeshifter sample_adder = true
  ∧ RangeShifterNumber sample_adder = PyInt 1
  ∧ ReferencedRangeShifterNumber sample_adder = RangeShifterNumber sample_adder
  ∧ RangeShifterType sample_adder = PyStr "BINARY"
  ∧ RangeShifterSetting sample_adder = PyStr "IN"
  ∧ NumberOfRangeShifters sample_adder = PyInt 1
  ∧ RangeShifterWaterEquivalentThickness sample_adder = PyFloat F64.lit_23
  ∧ ds sample_adder = None
  ∧ RangeShifterID sample_adder
    = (if is_supported_thickness (PyInt 3)
       then Some (PyStr ("RS=" +:+ py_str no_float_printed (PyInt 3) +:+ "cm"))
       else None)
  ∧ (RangeShifterID sample_adder = None ↔ true = false ∧ PyInt 3 = PyNone).
Proof.
  apply (constructed_editor_attributes no_float_printed (PyStr "plan.dcm") (PyStr "P")
           (PyInt 250) (PyInt 3) PyNone true sample_adder).
  vm_compute. reflexivity.
Defined.

Lemma int_snout_distance_is_exact_witness :
  20 ≤ 250 ≤ 421
  ∧ IsocentertoRangeShifterDistance sample_adder = Some (PyFloat (F64.of_Z (40 + 250))).
Proof.
  apply (int_snout_distance_is_exact no_float_printed (PyStr "plan.dcm") (PyStr "P")
           (PyInt 3) PyNone true 250 sample_adder).
  vm_compute. reflexivity.
Defined.

Lemma outfile_always_has_extension_witness :
  ends_with_dcm (outfile sample_inplace)
  ∧ (∀ o, PyStr "plan.dcm" = PyStr o →
       (ends_with_dcm o → outfile sample_inplace = o)
       ∧ (¬ ends_with_dcm o → outfile sample_inplace = o +:+ ".dcm")).
Proof.
  apply (outfile_always_has_extension no_float_printed (PyStr "plan.dcm") (PyStr "P")
           (PyInt 250) (PyInt 3) (PyStr "plan.dcm") true sample_inplace).
  vm_compute. reflexivity.
Defined.

Lemma default_outfile_name_witness :
  ∃ stem,
    infile sample_adder = stem +:+ ".dcm"
    ∧ outfile sample_adder
      = stem +:+ "_RS" +:+ py_str no_float_printed (PyInt 3) +:+ "_Snout"
        +:+ py_str no_float_printed (PyInt 250) +:+ ".dcm"
    ∧ outfile sample_adder ≠ infile sample_adder.
Proof.
  apply (default_outfile_name no_float_printed (PyStr "plan.dcm") (PyStr "P")
           (PyInt 250) (PyInt 3) true sample_adder).
  vm_compute. reflexivity.
Defined.

Lemma add_mode_document_witness :
  ∃ rsid dist beams',
    RangeShifterID sample_adder = Some rsid
    ∧ IsocentertoRangeShifterDistance sample_adder = Some dist
    ∧ add sample_adder sample_world
      = Ok (set_ds (Plan.mk (Some (RTPlanLabel sample_adder))
                            (Some (rewrite_uid "1.2.840.99999")) (Some beams'))
                   sample_adder,
            print (confirmation_line sample_adder "1.2.840.99999") sample_world)
    ∧ length beams' = 2%nat
    ∧ ∀ i b cp cps,
        [sample_beam; sample_beam] !! i = Some b →
        IonBeam.IonControlPointSequence b = Some (cp :: cps) →
        beams' !! i
        = Some (IonBeam.mk (Some (PyInt 1)) (Some [fresh_device_block rsid])
                  (Some (ControlPoint.mk (Some (PyInt 250))
                           (Some [fresh_settings_block dist])
                         :: cps))).
Proof.
  apply (add_mode_document no_float_printed (PyStr "plan.dcm") (PyStr "P")
           (PyInt 250) (PyInt 3) PyNone sample_adder sample_world sample_plan
           [sample_beam; sample_beam] "1.2.840.99999").
  - vm_compute. reflexivity.
  - reflexivity.
  - vm_compute. reflexivity.
  - reflexivity.
  - reflexivity.
  - apply sample_beams_ok.
Defined.

Lemma add_effects_witness :
  ∃ d d' uid,
    files sample_world !! infile sample_adder = Some (DicomFile d)
    ∧ Plan.SOPInstanceUID d = Some uid
    ∧ sample_after_add.1 = set_ds d' sample_adder
    ∧ (no_backslash (RTPlanLabel sample_adder) →
       Plan.RTPlanLabel d' = Some (RTPlanLabel sample_adder))
    ∧ Plan.SOPInstanceUID d' = Some (rewrite_uid uid)
    ∧ files sample_after_add.2 = files sample_world
    ∧ stdout sample_after_add.2
      = (stdout sample_world ++ [confirmation_line sample_adder uid])%list.
Proof.
  apply (add_effects sample_adder sample_after_add.1 sample_world sample_after_add.2).
  vm_compute. reflexivity.
Defined.

Lemma add_is_repeatable_witness :
  ∃ line, sample_after_add.2 = print line sample_world
          ∧ add sample_after_add.1 sample_after_add.2
            = Ok (sample_after_add.1, print line sample_after_add.2).
Proof.
  apply (add_is_repeatable sample_adder sample_after_add.1 sample_world
           sample_after_add.2).
  vm_compute. reflexivity.
Defined.

Lemma add_input_errors_witness :
  ∃ m, add sample_adder empty_world = Raise (FileNotFoundError m).
Proof.
  apply (proj1 (add_input_errors no_float_printed (PyStr "plan.dcm") (PyStr "P")
                  (PyInt 250) (PyInt 3) PyNone true sample_adder empty_world
                  sample_adder_built)).
  vm_compute. reflexivity.
Defined.

Lemma add_mode_stops_at_bad_beam_witness :
  add sample_adder world_with_bad_beam = Raise (IndexError "list index out of range").
Proof.
  apply (add_mode_stops_at_bad_beam no_float_printed (PyStr "plan.dcm") (PyStr "P")
           (PyInt 250) (PyInt 3) PyNone sample_adder world_with_bad_beam
           plan_with_bad_beam [sample_beam] [sample_beam] beam_without_control_points).
  - vm_compute. reflexivity.
  - vm_compute. reflexivity.
  - reflexivity.
  - repeat constructor. by eexists _, _.
  - intros (cp & cps & H). discriminate H.
Defined.

Lemma modify_mode_needs_no_beams_witness :
  ((∃ st, add sample_modifier world_without_beams = Ok st) ↔ @nil IonBeam.t = [])
  ∧ (@nil IonBeam.t = [] → no_backslash (RTPlanLabel sample_modifier) →
     add sample_modifier world_without_beams
     = Ok (set_ds (Plan.mk (Some (RTPlanLabel sample_modifier))
                           (Some (rewrite_uid "1.2.840.99999")) (Some []))
                  sample_modifier,
           print (confirmation_line sample_modifier "1.2.840.99999")
                 world_without_beams)).
Proof.
  apply (modify_mode_needs_no_beams no_float_printed (PyStr "plan.dcm") (PyStr "P")
           (PyInt 100) (PyInt 3) PyNone sample_modifier world_without_beams
           plan_without_beams [] "1.2.840.99999").
  - vm_compute. reflexivity.
  - vm_compute. reflexivity.
  - reflexivity.
  - reflexivity.
Defined.

Lemma modify_mode_errors_witness :
  add sample_modifier sample_world
  = Raise (if is_supported_thickness (PyInt 3)
           then match IonBeam.RangeShifterSequence sample_beam with
                | Some _ => NameError "name 'RangeShifterID' is not defined"
                | None =>
                    AttributeError "'Dataset' object has no attribute 'RangeShifterSequence'"
                end
           else AttributeError "'RangeShifter' object has no attribute 'RangeShifterID'").
Proof.
  apply (modify_mode_errors no_float_printed (PyStr "plan.dcm") (PyStr "P")
           (PyInt 100) (PyInt 3) PyNone sample_modifier sample_world sample_plan
           sample_beam [sample_beam]).
  - vm_compute. reflexivity.
  - vm_compute. reflexivity.
  - reflexivity.
Defined.

Lemma default_output_keeps_input_witness :
  outfile sample_adder ≠ infile sample_adder
  ∧ files sample_after_save.2 !! infile sample_adder
    = files sample_world !! infile sample_adder
  ∧ (∀ other, other ≠ outfile sample_adder →
              files sample_after_save.2 !! other = files sample_world !! other).
Proof.
  apply (default_output_keeps_input no_float_printed (PyStr "plan.dcm") (PyStr "P")
           (PyInt 250) (PyInt 3) true sample_adder sample_after_add.1
           sample_after_save.1 sample_world sample_after_add.2 sample_after_save.2).
  - vm_compute. reflexivity.
  - vm_compute. reflexivity.
  - vm_compute. reflexivity.
Defined.

Lemma short_uid_grows_witness :
  rewrite_uid "1." = "1." +:+ "4"
  ∧ String.length (rewrite_uid "1.") = 3%nat.
Proof. apply (short_uid_grows "1."). simpl. lia. Defined.

Lemma rewrite_uid_idempotent_iff_witness :
  rewrite_uid (rewrite_uid "1.2.840") = rewrite_uid "1.2.840".
Proof. apply (proj2 (rewrite_uid_idempotent_iff "1.2.840")). simpl. lia. Defined.

Lemma rewrite_uid_collisions_witness :
  rewrite_uid "1.2.840" = rewrite_uid "1.3.840".
Proof.
  apply (proj2 (rewrite_uid_collisions "1.2.840" "1.3.840"
                  ltac:(simpl; lia) ltac:(simpl; lia))).
  intros [|[|[|[|[|[|[|i]]]]]]] Hi; try reflexivity. done.
Defined.

(** ** The snout range, NaN included *)

Lemma in_range_int (z : Z) : in_range (PyInt z) ↔ 20 ≤ z ≤ 421.
Proof.
  unfold in_range, py_le, py_compare, as_num, num_compare.
  rewrite compare_Z_lit_20, compare_Z_lit_421. simpl.
  destruct (Z.compare_spec z 20), (Z.compare_spec z 421); simpl; split;
    try (intros [? ?]; discriminate); try done; try lia.
Qed.

(** A value that is not in the range is out of it in the sense of the two
    comparisons of the source, with one exception: the float NaN. *)
Lemma not_in_range_cases (p : pyval) :
  ¬ in_range p → out_of_range p ∨ p = PyFloat S754_nan.
Proof.
  intros Hp. destruct p as [|b|z|f|s].
  - left. by left.
  - left. apply bool_snout_position.
  - left. right. rewrite in_range_int in Hp.
    unfold py_lt, py_gt, py_compare, as_num, num_compare.
    rewrite compare_Z_lit_20, compare_Z_lit_421. simpl.
    destruct (Z.compare_spec z 20), (Z.compare_spec z 421); auto; lia.
  - destruct (decide (f = S754_nan)) as [->|Hnan]; [by right|]. left. right.
    unfold in_range, py_le, py_lt, py_gt, py_compare, as_num, num_compare in *.
    rewrite (SFcompare_antisym f F64.lit_20) in Hp. simpl in *.
    destruct (SFcompare f F64.lit_20) as [[]|] eqn:Hlo,
             (SFcompare f F64.lit_421) as [[]|] eqn:Hhi; simpl in *; auto;
      try (exfalso; apply Hp; by split);
      destruct f; try discriminate; done.
  - left. by left.
Qed.

Lemma nan_not_in_range : ¬ in_range (PyFloat S754_nan).
Proof. intros [H _]. discriminate H. Qed.

Section SnoutRange.
Variable float_repr : spec_float → string.

Lemma init_distance_int (path label thickness out : pyval) (add : bool)
    (z : Z) (self : RangeShifter) :
  init float_repr path label (PyInt z) thickness out add = Ok self →
  IsocentertoRangeShifterDistance self = Some (PyFloat (F64.of_Z (40 + z))).
Proof.
  intros H.
  apply init_inv in H as (i & r & l & o & dist & _ & _ & _ & H4 & _ & H6 & ->).
  apply check_snout_position_inv, passes_range_tests_int in H4.
  cbn [IsocentertoRangeShifterDistance].
  revert H6. unfold init_IsocentertoRangeShifterDistance, truthy.
  destruct (Z.eqb_spec z 0); [lia|]. cbn [negb].
  change (py_sub (PyFloat F64.lit_461) (PyFloat F64.lit_421))
    with (Ok (PyFloat F64.lit_40)).
  cbn [mbind result_bind]. unfold py_add, as_num, num_arith.
  rewrite small_int_converts by done. cbn [mbind result_bind].
  rewrite small_int_distance by done. by intros [= <-].
Qed.

Lemma init_distance_float (path label thickness out : pyval) (add : bool)
    (f : spec_float) (self : RangeShifter) :
  init float_repr path label (PyFloat f) thickness out add = Ok self →
  IsocentertoRangeShifterDistance self
  = Some (PyFloat (SFadd 53 1024 F64.lit_40 f)).
Proof.
  intros H.
  apply init_inv in H as (i & r & l & o & dist & _ & _ & _ & H4 & _ & H6 & ->).
  apply check_snout_position_inv in H4.
  cbn [IsocentertoRangeShifterDistance].
  revert H6. unfold init_IsocentertoRangeShifterDistance.
  rewrite (passes_truthy _ H4).
  change (py_sub (PyFloat F64.lit_461) (PyFloat F64.lit_421))
    with (Ok (PyFloat F64.lit_40)).
  cbn [mbind result_bind py_add as_num num_arith]. by intros [= <-].
Qed.

(** C6. What holds and what does not. A snout position p with
    20.0 <= p <= 421.0 is accepted (the other arguments being valid) and
    the distance stored is the binary64 sum 40.0 + p, 40.0 being
    461.0 - 421.0: for an int z it is the float 40 + z, for a float f it is
    the IEEE sum of 40.0 and f. Every value outside the range but one makes
    construction fail in add mode. The one is the float NaN: it is not in the
    range, yet it compares neither above 421.0 nor below 20.0, so the
    constructor accepts it and stores NaN as snout position and as
    distance. *)
Theorem snout_range_and_distance (path label p thickness out : pyval) :
  (in_range p → dcm_path path → isinstance_str label = true →
   is_supported_thickness thickness = true → outfile_ok out →
   ∀ add, ∃ self, init float_repr path label p thickness out add = Ok self)
  ∧ (in_range p →
     ∀ add self, init float_repr path label p thickness out add = Ok self →
       SFsub 53 1024 F64.lit_461 F64.lit_421 = F64.lit_40
       ∧ (∀ z, p = PyInt z →
            IsocentertoRangeShifterDistance self
            = Some (PyFloat (F64.of_Z (40 + z))))
       ∧ (∀ f, p = PyFloat f →
            IsocentertoRangeShifterDistance self
            = Some (PyFloat (SFadd 53 1024 F64.lit_40 f))))
  ∧ (¬ in_range p → p ≠ PyFloat S754_nan →
     ∃ e, init float_repr path label p thickness out true = Raise e
          ∧ InvalidArgument e)
  ∧ (p = PyFloat S754_nan →
     ¬ in_range p
     ∧ (dcm_path path → isinstance_str label = true →
        is_supported_thickness thickness = true → outfile_ok out →
        ∃ self, init float_repr path label p thickness out true = Ok self
                ∧ SnoutPosition self = PyFloat S754_nan
                ∧ IsocentertoRangeShifterDistance self = Some (PyFloat S754_nan))).
Proof.
  split; [|split; [|split]].
  - intros Hp Hpath Hlabel Hth Hout add.
    apply init_succeeds; auto using in_range_passes.
  - intros _ add self Hinit. split; [reflexivity|]. split.
    + intros z ->. by apply (init_distance_int path label thickness out add).
    + intros f ->. by apply (init_distance_float path label thickness out add).
  - intros Hp Hnan. apply init_fails_by. right; right.
    apply check_snout_position_add_rejects.
    by destruct (not_in_range_cases p Hp).
  - intros ->. split; [apply nan_not_in_range|].
    intros Hpath Hlabel Hth Hout.
    destruct (init_succeeds float_repr path label (PyFloat S754_nan) thickness out true)
      as [self Hself]; auto.
    { by split. }
    exists self. split; [done|]. split.
    + by apply init_inv in Hself as (? & ? & ? & ? & ? & _ & _ & _ & _ & _ & _ & ->).
    + by rewrite (init_distance_float _ _ _ _ _ _ _ Hself).
Qed.
End SnoutRange.

Lemma snout_range_and_distance_witness :
  (∃ self, init no_float_printed (PyStr "plan.dcm") (PyStr "P") (PyInt 250)
                (PyInt 3) PyNone true = Ok self)
  ∧ IsocentertoRangeShifterDistance sample_adder
    = Some (PyFloat (S754_finite false 5101733952880640 (-44)))
  ∧ IsocentertoRangeShifterDistance sample_float_adder
    = Some (PyFloat (S754_finite false 5110530045902848 (-44)))
  ∧ (∃ e, init no_float_printed (PyStr "plan.dcm") (PyStr "P") (PyInt 500)
               (PyInt 3) PyNone true = Raise e ∧ InvalidArgument e)
  ∧ (∃ self, init no_float_printed (PyStr "plan.dcm") (PyStr "P")
                  (PyFloat S754_nan) (PyInt 3) (PyStr "out.dcm") true = Ok self
             ∧ SnoutPosition self = PyFloat S754_nan
             ∧ IsocentertoRangeShifterDistance self = Some (PyFloat S754_nan)).
Proof.
  destruct (snout_range_and_distance no_float_printed
              (PyStr "plan.dcm") (PyStr "P") (PyInt 250) (PyInt 3) PyNone)
    as (Haccept & Hint & _ & _).
  destruct (snout_range_and_distance no_float_printed
              (PyStr "plan.dcm") (PyStr "P") (PyFloat float_250_5) (PyInt 3)
              (PyStr "out.dcm"))
    as (_ & Hfloat & _ & _).
  destruct (snout_range_and_distance no_float_printed
              (PyStr "plan.dcm") (PyStr "P") (PyInt 500) (PyInt 3) PyNone)
    as (_ & _ & Hreject & _).
  destruct (snout_range_and_distance no_float_printed
              (PyStr "plan.dcm") (PyStr "P") (PyFloat S754_nan) (PyInt 3)
              (PyStr "out.dcm"))
    as (_ & _ & _ & Hnan).
  split; [|split; [|split; [|split]]].
  - apply Haccept;
      [apply sample_snout_in_range | apply sample_path_ok | reflexivity
       | reflexivity | left; reflexivity].
  - destruct (Hint sample_snout_in_range true sample_adder) as (_ & H & _);
      [vm_compute; reflexivity|].
    rewrite (H 250 eq_refl). vm_compute. reflexivity.
  - destruct (Hfloat ltac:(split; reflexivity) true sample_float_adder) as (_ & _ & H);
      [vm_compute; reflexivity|].
    rewrite (H float_250_5 eq_refl). vm_compute. reflexivity.
  - apply Hreject; [|discriminate].
    intros [_ H]. discriminate H.
  - apply (proj2 (Hnan eq_refl));
      [apply sample_path_ok | reflexivity | reflexivity | right; reflexivity].
Defined.
